(** * fiatjaf/graphql: request pipeline and websocket subscription handler

    A shallow embedding of

    - [graphql.do], [graphql.Do], [graphql.DoAsync] (package graphql), and
    - [ContextWebsocketHandler] with its session registry and its teardown
      (package handler, websocket.go),

    together with the properties the specification states about them.

    Conventions.
    - Go channels are represented by the operations their producer performs
      on them, in order ([chan]); a receive takes the next operation.
    - Calls that [do] makes into the rest of the package (extension hooks,
      parser, validator, executor) are taken as parameters
      ([Collaborators]); every call is recorded in a trace.
    - A Go panic is an explicit outcome. *)

From stdpp Require Import gmap strings list fin_maps.
From Stdlib Require Import ZArith Ascii DecimalString.

Local Open Scope string_scope.
Local Open Scope list_scope.

(** Go's [error] values, identified by the text of their [Error()]. *)
Definition error : Type := string.

(** ** Package context *)
Module context.

(** A [CancelFunc] is identified by the handle of the context it cancels. *)
Definition CancelFunc : Type := nat.

Inductive Context : Type :=
| Background
| Derived (parent : Context) (handle : CancelFunc)
| Modified (parent : Context) (headers : gmap string string).

End context.

(** ** Package ast *)
Module ast.

(** The one field of [ast.OperationDefinition] the pipeline reads. *)
Record OperationDefinition : Type := { Operation : string }.

(** The implementations of the [Node] interface, one constructor for each
    dynamic type in the list of the package. *)
Inductive Node : Type :=
| N_Name
| N_Document
| N_OperationDefinition (d : OperationDefinition)
| N_VariableDefinition
| N_Variable
| N_SelectionSet
| N_Field
| N_Argument
| N_FragmentSpread
| N_InlineFragment
| N_FragmentDefinition
| N_IntValue
| N_FloatValue
| N_StringValue
| N_BooleanValue
| N_EnumValue
| N_ListValue
| N_ObjectValue
| N_ObjectField
| N_Directive
| N_Named
| N_List
| N_NonNull
| N_SchemaDefinition
| N_OperationTypeDefinition
| N_ScalarDefinition
| N_ObjectDefinition
| N_FieldDefinition
| N_InputValueDefinition
| N_InterfaceDefinition
| N_UnionDefinition
| N_EnumDefinition
| N_EnumValueDefinition
| N_InputObjectDefinition
| N_TypeExtensionDefinition
| N_DirectiveDefinition.

Record Document : Type := { Definitions : list Node }.

(** The type assertion of a node to a pointer to [OperationDefinition], in
    its two-result form. *)
Definition asOperationDefinition (n : Node) : option OperationDefinition :=
  match n with
  | N_OperationDefinition d => Some d
  | _ => None
  end.

Definition isOperationDefinition (n : Node) : bool :=
  match asOperationDefinition n with Some _ => true | None => false end.

End ast.

(** ** Package gqlerrors *)
Module gqlerrors.

Record SourceLocation : Type := { Line : nat; Column : nat }.

(** Modelled from the spec: the struct [FormattedError] of package
    gqlerrors, a message, locations, a path of names and indices, and the
    error it was made from. *)
Record FormattedError : Type := {
  Message : string;
  Locations : list SourceLocation;
  Path : list (string + Z);
  OriginalError : error
}.

Definition FormattedErrors : Type := list FormattedError.

End gqlerrors.

(** ** Channels

    A channel made by [make(chan T)] is unbuffered; what a consumer can
    observe of it is the sequence of operations its producer goroutine
    performs. A producer that stops without closing the channel leaves a
    sequence without [Close]: the consumer then waits forever. The stream
    of a subscription is given by the operations performed on it up to
    the point of observation. *)
Inductive ChanOp (T : Type) : Type :=
| Send (v : T)
| Close.
Arguments Send {T} v.
Arguments Close {T}.

Definition chan (T : Type) : Type := list (ChanOp T).

(** [ch := make(chan T); go func() { ch <- v }()]: one send, then the
    goroutine ends; nothing closes the channel. *)
Definition singleEventChannel {T : Type} (v : T) : chan T := [Send v].

(** What [<-ch] does. *)
Inductive Recv (T : Type) : Type :=
| Received (v : T) (rest : chan T)
| ClosedZero
| BlocksForever.
Arguments Received {T} v rest.
Arguments ClosedZero {T}.
Arguments BlocksForever {T}.

Definition recv {T : Type} (ch : chan T) : Recv T :=
  match ch with
  | Send v :: rest => Received v rest
  | Close :: _ => ClosedZero
  | [] => BlocksForever
  end.

(** What [for v := range ch { ... }] does: the values it iterates over, and
    whether the loop ends (the channel gets closed) or waits forever for a
    next value. *)
Inductive RangeEnd : Type := LoopEnds | LoopBlocks.

Fixpoint range {T : Type} (ch : chan T) : list T * RangeEnd :=
  match ch with
  | [] => ([], LoopBlocks)
  | Close :: _ => ([], LoopEnds)
  | Send v :: rest => let '(vs, e) := range rest in (v :: vs, e)
  end.

Definition delivered {T : Type} (ch : chan T) : list T := (range ch).1.

Definition closes {T : Type} (ch : chan T) : bool :=
  match (range ch).2 with LoopEnds => true | LoopBlocks => false end.

(** ** Package source and package parser: the types [do] builds *)
Module source.
Record Source : Type := { Body : string; Name : string }.
End source.

Module parser.
Record ParseParams : Type := { Source : source.Source }.
End parser.

(** ** Package graphql *)
Module graphql.
Import gqlerrors.

(** Calls and goroutine starts of one run of [do], in program order. Hook
    events carry what the hook returned. *)
Inductive Event : Type :=
| EvInits (errs : FormattedErrors)
| EvParseDidStart (errs : FormattedErrors)
| EvParse (err : option error)
| EvParseFinish (err : option error) (errs : FormattedErrors)
| EvValidationDidStart (errs : FormattedErrors)
| EvValidateDocument (isValid : bool)
| EvValidationFinish (verrs : FormattedErrors) (errs : FormattedErrors)
| EvExecuteSubscription
| EvGoExecute
| EvGoWrapErr.

Inductive Outcome (A : Type) : Type :=
| Returned (a : A)
| Panicked (msg : string).
Arguments Returned {A} a.
Arguments Panicked {A} msg.

(** A computation: the trace it leaves and how it ends. *)
Definition M (A : Type) : Type := list Event * Outcome A.

Definition ret {A : Type} (a : A) : M A := ([], Returned a).

Definition bind {A B : Type} (m : M A) (k : A -> M B) : M B :=
  match m with
  | (t, Returned a) => let '(t', o) := k a in (t ++ t', o)
  | (t, Panicked msg) => (t, Panicked msg)
  end.

Definition emit (e : Event) : M unit := ([e], Returned tt).

Definition panic {A : Type} (msg : string) : M A := ([], Panicked msg).

Definition trace {A : Type} (m : M A) : list Event := m.1.
Definition outcome {A : Type} (m : M A) : Outcome A := m.2.

Declare Scope go_scope.
Delimit Scope go_scope with go.
Notation "x <- c ;; k" := (bind c (fun x => k))
  (at level 100, c at next level, right associativity) : go_scope.
Notation "c ;;; k" := (bind c (fun _ => k))
  (at level 100, right associativity) : go_scope.

Section Pipeline.
(** [Schema] and the values behind [interface{}] are opaque here. *)
Context {Schema Value : Type}.

Record Params : Type := {
  Params_Schema : Schema;
  Params_RequestString : string;
  Params_RootObject : gmap string Value;
  Params_VariableValues : gmap string Value;
  Params_OperationName : string;
  Params_Context : context.Context
}.

(** Modelled from the spec: the struct [Result], optional data and an
    ordered list of errors. *)
Record Result : Type := {
  Result_Data : option Value;
  Result_Errors : FormattedErrors
}.

(** Modelled from the spec: the struct [ValidationResult], a flag and an
    ordered list of errors. *)
Record ValidationResult : Type := {
  IsValid : bool;
  ValidationResult_Errors : FormattedErrors
}.

(** The fields of [ExecuteParams] that [do] sets. *)
Record ExecuteParams : Type := {
  ExecuteParams_Schema : Schema;
  ExecuteParams_Root : gmap string Value;
  ExecuteParams_AST : ast.Document;
  ExecuteParams_OperationName : string;
  ExecuteParams_Args : gmap string Value;
  ExecuteParams_Context : context.Context
}.

Definition parseFinishFuncHandler : Type := option error -> FormattedErrors.
Definition validationFinishFuncHandler : Type :=
  FormattedErrors -> FormattedErrors.

(** The functions [do] calls that live elsewhere in the repository. The
    hooks receive [&p] and may update it, so they return the new [p]. The
    parser returns either a document or a non-nil error. *)
Record Collaborators : Type := {
  NewSource : source.Source -> source.Source;
  handleExtensionsInits : Params -> Params * FormattedErrors;
  handleExtensionsParseDidStart :
    Params -> Params * FormattedErrors * parseFinishFuncHandler;
  Parse : parser.ParseParams -> ast.Document + error;
  FormatErrors : list error -> FormattedErrors;
  handleExtensionsValidationDidStart :
    Params -> Params * FormattedErrors * validationFinishFuncHandler;
  ValidateDocument : Schema -> ast.Document -> ValidationResult;
  Execute : ExecuteParams -> Result;
  ExecuteSubscription : ExecuteParams -> chan Result
}.

Variable E : Collaborators.

Local Open Scope go_scope.

(** The closure [wrapErr] of [do]. *)
Definition wrapErr (gqlerr : FormattedErrors) : M (chan Result) :=
  emit EvGoWrapErr ;;;
  ret (singleEventChannel {| Result_Data := None; Result_Errors := gqlerr |}).

(** The condition of the last [if] of [do], with Go's short-circuit
    [&&] and the one-result type assertion of [AST.Definitions[0]]. *)
Definition isStreaming (skipSubscriptions : bool) (AST : ast.Document)
  : M bool :=
  if negb skipSubscriptions then
    if bool_decide (0 < length (ast.Definitions AST)) then
      match ast.Definitions AST !! 0%nat with
      | None => panic "index out of range"
      | Some n =>
          match ast.asOperationDefinition n with
          | None =>
              panic "interface conversion: ast.Node is not *ast.OperationDefinition"
          | Some d =>
              ret (String.eqb (ast.Operation d) "subscription")
          end
      end
    else ret false
  else ret false.

(** The last [if] of [do]: the streaming strategy, or one goroutine
    that sends the result of [Execute] on a new channel. *)
Definition dispatch (params : ExecuteParams) (AST : ast.Document)
    (skipSubscriptions : bool) : M (chan Result) :=
  streaming <- isStreaming skipSubscriptions AST ;;
  if streaming then
    emit EvExecuteSubscription ;;; ret (ExecuteSubscription E params)
  else
    emit EvGoExecute ;;; ret (singleEventChannel (Execute E params)).

(** What [do] hands to the parser. *)
Definition parseParams (p : Params) : parser.ParseParams :=
  {| parser.Source :=
       NewSource E {| source.Body := Params_RequestString p;
                      source.Name := "GraphQL request" |} |}.

Definition do (p : Params) (skipSubscriptions : bool) : M (chan Result) :=
  let source := parser.Source (parseParams p) in
  (* run init on the extensions *)
  r <- (let r := handleExtensionsInits E p in
        emit (EvInits r.2) ;;; ret r) ;;
  let '(p, extErrs) := r in
  if negb (Nat.eqb (length extErrs) 0) then wrapErr extErrs else
  r <- (let r := handleExtensionsParseDidStart E p in
        emit (EvParseDidStart r.1.2) ;;; ret r) ;;
  let '(p, extErrs, parseFinishFn) := r in
  if negb (Nat.eqb (length extErrs) 0) then wrapErr extErrs else
  (* parse the source *)
  parsed <- (let r := Parse E {| parser.Source := source |} in
             emit (EvParse (match r with inl _ => None | inr e => Some e end)) ;;;
             ret r) ;;
  match parsed with
  | inr err =>
      (* run parseFinishFuncs for extensions *)
      extErrs <- (let r := parseFinishFn (Some err) in
                  emit (EvParseFinish (Some err) r) ;;; ret r) ;;
      (* merge the errors from extensions and the original error from
         parser *)
      let extErrs := extErrs ++ FormatErrors E [err] in
      wrapErr extErrs
  | inl AST =>
      (* run parseFinish functions for extensions *)
      extErrs <- (let r := parseFinishFn None in
                  emit (EvParseFinish None r) ;;; ret r) ;;
      if negb (Nat.eqb (length extErrs) 0) then wrapErr extErrs else
      (* notify extensions about the start of the validation *)
      r <- (let r := handleExtensionsValidationDidStart E p in
            emit (EvValidationDidStart r.1.2) ;;; ret r) ;;
      let '(p, extErrs, validationFinishFn) := r in
      if negb (Nat.eqb (length extErrs) 0) then wrapErr extErrs else
      (* validate document *)
      validationResult <-
        (let r := ValidateDocument E (Params_Schema p) AST in
         emit (EvValidateDocument (IsValid r)) ;;; ret r) ;;
      if negb (IsValid validationResult) then
        (* run validation finish functions for extensions *)
        extErrs <-
          (let r := validationFinishFn (ValidationResult_Errors validationResult) in
           emit (EvValidationFinish (ValidationResult_Errors validationResult) r) ;;;
           ret r) ;;
        let extErrs := extErrs ++ ValidationResult_Errors validationResult in
        wrapErr extErrs
      else
      (* run the validationFinishFuncs for extensions *)
      extErrs <-
        (let r := validationFinishFn (ValidationResult_Errors validationResult) in
         emit (EvValidationFinish (ValidationResult_Errors validationResult) r) ;;;
         ret r) ;;
      if negb (Nat.eqb (length extErrs) 0) then wrapErr extErrs else
      let params := {|
        ExecuteParams_Schema := Params_Schema p;
        ExecuteParams_Root := Params_RootObject p;
        ExecuteParams_AST := AST;
        ExecuteParams_OperationName := Params_OperationName p;
        ExecuteParams_Args := Params_VariableValues p;
        ExecuteParams_Context := Params_Context p
      |} in
      dispatch params AST skipSubscriptions
  end.

(** [DoAsync] returns the channel of [do(p, false)]. *)
Definition DoAsync (p : Params) : M (chan Result) := do p false.

(** [Do] receives once from the channel of [do(p, true)]. The result is
    a pointer: [None] stands for nil, which a receive from a closed
    channel would give. [DoBlocks] is a receive that never completes. *)
Inductive DoResult : Type :=
| DoReturns (r : option Result)
| DoBlocks.

Definition Do (p : Params) : M DoResult :=
  ch <- do p true ;;
  match recv ch with
  | Received r _ => ret (DoReturns (Some r))
  | ClosedZero => ret (DoReturns None)
  | BlocksForever => ret DoBlocks
  end.

End Pipeline.

Arguments Params : clear implicits.
Arguments Result : clear implicits.
Arguments ValidationResult : clear implicits.
Arguments ExecuteParams : clear implicits.
Arguments Collaborators : clear implicits.
Arguments DoResult : clear implicits.

End graphql.

(** ** Package time: durations are [int64] nanoseconds *)
Module time.
Local Open Scope Z_scope.
Definition Duration : Type := Z.
Definition Nanosecond : Duration := 1.
Definition Microsecond : Duration := 1000 * Nanosecond.
Definition Millisecond : Duration := 1000 * Microsecond.
Definition Second : Duration := 1000 * Millisecond.
End time.

(** ** Package strings: the two functions the handler uses

    Go strings are byte sequences. The cutset the handler passes is the one
    ASCII character space, whose byte never occurs inside a multi-byte
    UTF-8 sequence, so trimming byte by byte is what Go does rune by rune. *)
Module strings.

Fixpoint inCutset (cutset : string) (c : ascii) : bool :=
  match cutset with
  | EmptyString => false
  | String d cutset' => if Ascii.eqb c d then true else inCutset cutset' c
  end.

Fixpoint TrimLeft (s cutset : string) : string :=
  match s with
  | EmptyString => EmptyString
  | String c s' => if inCutset cutset c then TrimLeft s' cutset else s
  end.

Fixpoint HasPrefix (s prefix : string) {struct prefix} : bool :=
  match prefix, s with
  | EmptyString, _ => true
  | String _ _, EmptyString => false
  | String p prefix', String c s' =>
      if Ascii.eqb c p then HasPrefix s' prefix' else false
  end.

End strings.

(** ** Package handler (websocket.go) *)
Module handler.
Import context gqlerrors.

(** *** Keepalive constants *)
Definition writeWait : time.Duration := (10 * time.Second)%Z.
Definition pongWait : time.Duration := (60 * time.Second)%Z.
Definition pingPeriod : time.Duration := (pongWait `quot` 2)%Z.
Definition maxMessageSize : Z := 512000%Z.

(** Message types of package websocket. *)
Definition PingMessage : Z := 9%Z.
Definition PongMessage : Z := 10%Z.

Definition RawMessage : Type := string.

(** The test that picks the branch of a subscribe/start frame. *)
Definition hasSubscriptionPrefix (query : string) : bool :=
  strings.HasPrefix (strings.TrimLeft query " ") "subscription".

Inductive Outcome (A : Type) : Type :=
| Done (a : A)
| Blocked
| Panic (msg : string).
Arguments Done {A} a.
Arguments Blocked {A}.
Arguments Panic {A} msg.

Section Handler.
Context {Schema Value any : Type}.

Abbreviation Params := (graphql.Params Schema Value).
Abbreviation Result := (graphql.Result Value).

Record GraphQLWSMessage : Type := {
  ID : option any;
  Type_ : string;
  Payload : RawMessage
}.

Record GraphQLWSSubscriptionPayload : Type := {
  OperationName : string;
  Query : string;
  Variables : gmap string Value;
  Extensions : gmap string Value
}.

Record Handler : Type := {
  Handler_Schema : Schema;
  formatErrorFn : option (error -> FormattedError);
  ModifyContextOnHeaders :
    option (Context -> gmap string string -> Context)
}.

(** Package json and [fmt.Sprintf] with the verb v, at the types the
    handler uses them. *)
Record Codec : Type := {
  Unmarshal_message : string -> GraphQLWSMessage + error;
  Unmarshal_payload : RawMessage -> GraphQLWSSubscriptionPayload + error;
  Unmarshal_headers : RawMessage -> gmap string string + error;
  Marshal_result : option Result -> RawMessage;
  Marshal_string : string -> RawMessage;
  Sprintf_v : option any -> string
}.

Inductive Written : Type :=
| WroteJSON (m : GraphQLWSMessage)
| WroteMessage (t : Z) (b : string).

Inductive Entry : Type := CalledDoAsync | CalledDo.

(** The state of one connection. [cancelled], [sessions], [written] and
    [runs] are histories, oldest first: the cancel functions called, the
    sessions stored in the registry with the key they were stored under,
    the frames written, and the pipeline runs started. *)
Record Conn : Type := {
  ctx : Context;
  subscriptionCancellers : gmap string CancelFunc;
  nextHandle : nat;
  cancelled : list CancelFunc;
  sessions : list (string * CancelFunc);
  written : list Written;
  runs : list (Entry * Params);
  tickerStopped : bool;
  connClosed : bool
}.

Definition newConn (c : Context) : Conn := {|
  ctx := c;
  subscriptionCancellers := ∅;
  nextHandle := 0;
  cancelled := [];
  sessions := [];
  written := [];
  runs := [];
  tickerStopped := false;
  connClosed := false
|}.

Definition setCtx (c : Context) (st : Conn) : Conn :=
  {| ctx := c;
     subscriptionCancellers := subscriptionCancellers st;
     nextHandle := nextHandle st; cancelled := cancelled st;
     sessions := sessions st; written := written st; runs := runs st;
     tickerStopped := tickerStopped st; connClosed := connClosed st |}.

Definition setRegistry (m : gmap string CancelFunc) (st : Conn) : Conn :=
  {| ctx := ctx st;
     subscriptionCancellers := m;
     nextHandle := nextHandle st; cancelled := cancelled st;
     sessions := sessions st; written := written st; runs := runs st;
     tickerStopped := tickerStopped st; connClosed := connClosed st |}.

Definition setNextHandle (n : nat) (st : Conn) : Conn :=
  {| ctx := ctx st;
     subscriptionCancellers := subscriptionCancellers st;
     nextHandle := n; cancelled := cancelled st;
     sessions := sessions st; written := written st; runs := runs st;
     tickerStopped := tickerStopped st; connClosed := connClosed st |}.

Definition setCancelled (l : list CancelFunc) (st : Conn) : Conn :=
  {| ctx := ctx st;
     subscriptionCancellers := subscriptionCancellers st;
     nextHandle := nextHandle st; cancelled := l;
     sessions := sessions st; written := written st; runs := runs st;
     tickerStopped := tickerStopped st; connClosed := connClosed st |}.

Definition setSessions (l : list (string * CancelFunc)) (st : Conn) : Conn :=
  {| ctx := ctx st;
     subscriptionCancellers := subscriptionCancellers st;
     nextHandle := nextHandle st; cancelled := cancelled st;
     sessions := l; written := written st; runs := runs st;
     tickerStopped := tickerStopped st; connClosed := connClosed st |}.

Definition setWritten (l : list Written) (st : Conn) : Conn :=
  {| ctx := ctx st;
     subscriptionCancellers := subscriptionCancellers st;
     nextHandle := nextHandle st; cancelled := cancelled st;
     sessions := sessions st; written := l; runs := runs st;
     tickerStopped := tickerStopped st; connClosed := connClosed st |}.

Definition setRuns (l : list (Entry * Params)) (st : Conn) : Conn :=
  {| ctx := ctx st;
     subscriptionCancellers := subscriptionCancellers st;
     nextHandle := nextHandle st; cancelled := cancelled st;
     sessions := sessions st; written := written st; runs := l;
     tickerStopped := tickerStopped st; connClosed := connClosed st |}.

Definition setStopped (ticker conn : bool) (st : Conn) : Conn :=
  {| ctx := ctx st;
     subscriptionCancellers := subscriptionCancellers st;
     nextHandle := nextHandle st; cancelled := cancelled st;
     sessions := sessions st; written := written st; runs := runs st;
     tickerStopped := ticker; connClosed := conn |}.

(** Handler code runs on a connection state and ends normally, waits
    forever on a channel, or panics. *)
Definition H (A : Type) : Type := Conn -> Outcome A * Conn.

Definition ret {A : Type} (a : A) : H A := fun st => (Done a, st).

Definition bind {A B : Type} (m : H A) (k : A -> H B) : H B :=
  fun st =>
    match m st with
    | (Done a, st') => k a st'
    | (Blocked, st') => (Blocked, st')
    | (Panic msg, st') => (Panic msg, st')
    end.

Definition modify (f : Conn -> Conn) : H unit := fun st => (Done tt, f st).
Definition block {A : Type} : H A := fun st => (Blocked, st).
Definition panic {A : Type} (msg : string) : H A :=
  fun st => (Panic msg, st).

Notation "x <- c ;; k" := (bind c (fun x => k))
  (at level 100, c at next level, right associativity).
Notation "c ;;; k" := (bind c (fun _ => k))
  (at level 100, right associativity).

(** [ws.WriteJSON]; the handler ignores the error it returns. *)
Definition WriteJSON (m : GraphQLWSMessage) : H unit :=
  modify (fun st => setWritten (written st ++ [WroteJSON m]) st).

(** [context.WithCancel]: a new context and the function cancelling it. *)
Definition WithCancel (parent : Context) : H (Context * CancelFunc) :=
  fun st =>
    let h := nextHandle st in
    (Done (Derived parent h, h), setNextHandle (S h) st).

(** Calling a cancel function. *)
Definition call (cancel : CancelFunc) : H unit :=
  modify (fun st => setCancelled (cancelled st ++ [cancel]) st).

(** The methods of [syncmap.MapOf] the handler uses. *)
Definition Store (key : string) (cancel : CancelFunc) : H unit :=
  modify (fun st =>
    setSessions (sessions st ++ [(key, cancel)])
      (setRegistry (<[key := cancel]> (subscriptionCancellers st)) st)).

Definition Load (key : string) : H (option CancelFunc) :=
  fun st => (Done (subscriptionCancellers st !! key), st).

Definition Delete (key : string) : H unit :=
  modify (fun st => setRegistry (delete key (subscriptionCancellers st)) st).

(** [Range] walks the entries present when it starts; for each it reads
    the current value under the key, skips the key if it is gone, and
    stops when [f] returns false. *)
Fixpoint RangeOver (f : string -> CancelFunc -> H bool)
    (entries : list (string * CancelFunc)) : H unit :=
  match entries with
  | [] => ret tt
  | (key, _) :: rest =>
      v <- Load key ;;
      match v with
      | None => RangeOver f rest
      | Some cancel =>
          continue <- f key cancel ;;
          if continue : bool then RangeOver f rest else ret tt
      end
  end.

Definition Range (f : string -> CancelFunc -> H bool) : H unit :=
  fun st => RangeOver f (map_to_list (subscriptionCancellers st)) st.

(** The function [terminateConnection] passes to [Range]. *)
Definition cancelAndDelete (id : string) (cancel : CancelFunc) : H bool :=
  Delete id ;;;
  call cancel ;;;
  ret true.

(** The closure [terminateConnection]: stop the ticker, close the
    socket, walk the registry. *)
Definition terminateConnection : H unit :=
  modify (fun st => setStopped true (connClosed st) st) ;;;
  modify (fun st => setStopped (tickerStopped st) true st) ;;;
  Range cancelAndDelete.

Variable h : Handler.
Variable C : Codec.
Variable E : graphql.Collaborators Schema Value.

(** A pipeline run started from the handler; a panic of the run is a
    panic of the goroutine. *)
Definition runDoAsync (params : Params) : H (chan Result) :=
  modify (fun st => setRuns (runs st ++ [(CalledDoAsync, params)]) st) ;;;
  match graphql.outcome (graphql.DoAsync E params) with
  | graphql.Returned ch => ret ch
  | graphql.Panicked msg => panic msg
  end.

Definition runDo (params : Params) : H (option Result) :=
  modify (fun st => setRuns (runs st ++ [(CalledDo, params)]) st) ;;;
  match graphql.outcome (graphql.Do E params) with
  | graphql.Returned (graphql.DoReturns r) => ret r
  | graphql.Returned graphql.DoBlocks => block
  | graphql.Panicked msg => panic msg
  end.

(** [for result := range ch { body }] *)
Fixpoint forRange {T : Type} (ch : chan T) (body : T -> H unit) : H unit :=
  match ch with
  | [] => block
  | Close :: _ => ret tt
  | Send v :: rest => body v ;;; forRange rest body
  end.

(** The map literal indexed by [msg.Type]; a missing key gives the empty
    string. *)
Definition dataMessageNames : gmap string string :=
  <["subscribe" := "next"]> (<["start" := "data"]> ∅).

(** Lines 158 and 159: a cancellable context for the frame, and its
    cancel function stored under the frame's id. *)
Definition registerSession (id : option any) : H (Context * CancelFunc) :=
  st <- (fun st => (Done st, st)) ;;
  r <- WithCancel (ctx st) ;;
  Store (Sprintf_v C id) r.2 ;;;
  ret r.

(** The rewriting of [result.Errors] through [formatErrorFn]. *)
Definition formatErrors (result : option Result) : H (option Result) :=
  match formatErrorFn h with
  | None => ret result
  | Some formatErrorFn =>
      match result with
      | None => panic "invalid memory address or nil pointer dereference"
      | Some r =>
          if bool_decide (0 < length (graphql.Result_Errors r)) then
            ret (Some {|
              graphql.Result_Data := graphql.Result_Data r;
              graphql.Result_Errors :=
                map (fun formattedError =>
                       formatErrorFn (OriginalError formattedError))
                    (graphql.Result_Errors r) |})
          else ret result
      end
  end.

(** The case "subscribe", "start". *)
Definition handleStart (msg : GraphQLWSMessage) : H unit :=
  let dataMessageName := default "" (dataMessageNames !! Type_ msg) in
  match Unmarshal_payload C (Payload msg) with
  | inr err =>
      WriteJSON {| ID := None; Type_ := "error";
                   Payload := Marshal_string C err |}
  | inl payload =>
      r <- registerSession (ID msg) ;;
      let '(cancellableCtx, cancel) := r in
      let params := {|
        graphql.Params_Schema := Handler_Schema h;
        graphql.Params_RequestString := Query payload;
        graphql.Params_RootObject := ∅;
        graphql.Params_VariableValues := Variables payload;
        graphql.Params_OperationName := OperationName payload;
        graphql.Params_Context := cancellableCtx
      |} in
      let writeResult (result : option Result) : H unit :=
        WriteJSON {| ID := ID msg;
                     Payload := Marshal_result C result;
                     Type_ := dataMessageName |} in
      if hasSubscriptionPrefix (Query payload) then
        (* subscription *)
        ch <- runDoAsync params ;;
        forRange ch (fun result => writeResult (Some result))
      else
        (* query or mutation *)
        result <- runDo params ;;
        result <- formatErrors result ;;
        writeResult result ;;;
        call cancel (* cancel the context here *)
  end.

(** The case "stop". *)
Definition handleStop (msg : GraphQLWSMessage) : H unit :=
  v <- Load (Sprintf_v C (ID msg)) ;;
  match v with
  | Some cancel =>
      Delete (Sprintf_v C (ID msg)) ;;;
      call cancel
  | None => ret tt
  end.

(** The case "connection_init". *)
Definition handleInit (msg : GraphQLWSMessage) : H unit :=
  WriteJSON {| ID := None; Type_ := "connection_ack";
               Payload := EmptyString |} ;;;
  match ModifyContextOnHeaders h with
  | None => ret tt
  | Some modifyContext =>
      match Unmarshal_headers C (Payload msg) with
      | inl headers =>
          modify (fun st => setCtx (modifyContext (ctx st) headers) st)
      | inr _ => ret tt
      end
  end.

(** The goroutine started for one inbound message. *)
Definition handleMessage (message : string) : H unit :=
  match Unmarshal_message C message with
  | inr err =>
      WriteJSON {| ID := None; Type_ := "error";
                   Payload := Marshal_string C err |}
  | inl msg =>
      if String.eqb (Type_ msg) "connection_init" then handleInit msg
      else if String.eqb (Type_ msg) "subscribe"
              || String.eqb (Type_ msg) "start" then handleStart msg
      else if String.eqb (Type_ msg) "stop" then handleStop msg
      else ret tt
  end.

(** Sessions stored under [key] whose cancel function has not been
    called. *)
Definition liveSessions (key : string) (st : Conn) : list CancelFunc :=
  filter (fun c => c ∉ cancelled st)
    (map snd (filter (fun kc => kc.1 = key) (sessions st))).

End Handler.

Arguments GraphQLWSMessage : clear implicits.
Arguments GraphQLWSSubscriptionPayload : clear implicits.
Arguments Handler : clear implicits.
Arguments Codec : clear implicits.
Arguments Written : clear implicits.
Arguments Conn : clear implicits.

End handler.

(** ** A concrete schema, concrete hooks and concrete frames

    The schema has a field [hello] that resolves to the string world and a
    subscription field [counter]; it has no mutation type. The parser and
    the JSON decoder are given on the few texts used below. *)
Module demo.
Import gqlerrors.

(** JSON values: strings, integers and objects with one field. *)
Inductive Value : Type :=
| VString (s : string)
| VInt (z : Z)
| VObject (field : string) (v : Value).

Definition Schema : Type := unit.
Definition any : Type := string.

Abbreviation Params := (graphql.Params Schema Value).
Abbreviation Result := (graphql.Result Value).

Definition newline : string := String (ascii_of_nat 10) EmptyString.
Definition dq : string := String (ascii_of_nat 34) EmptyString.

Definition helloQuery : string := "{ hello }".
Definition counterSubscription : string := "subscription { counter }".
Definition counterSubscriptionNL : string := newline +:+ counterSubscription.
Definition fragmentFirst : string :=
  "fragment F on Query { hello } query { ...F }".
Definition nopeMutation : string := "mutation { nope }".

Definition operation (kind : string) : ast.Node :=
  ast.N_OperationDefinition {| ast.Operation := kind |}.

Definition helloDoc : ast.Document :=
  {| ast.Definitions := [operation "query"] |}.
Definition counterDoc : ast.Document :=
  {| ast.Definitions := [operation "subscription"] |}.
Definition fragmentFirstDoc : ast.Document :=
  {| ast.Definitions := [ast.N_FragmentDefinition; operation "query"] |}.
Definition nopeDoc : ast.Document :=
  {| ast.Definitions := [operation "mutation"] |}.

Definition firstOperationIs (kind : string) (doc : ast.Document) : bool :=
  match ast.Definitions doc with
  | ast.N_OperationDefinition d :: _ => String.eqb (ast.Operation d) kind
  | _ => false
  end.

Definition parse (pp : parser.ParseParams) : ast.Document + error :=
  let body := source.Body (parser.Source pp) in
  if String.eqb body helloQuery then inl helloDoc
  else if String.eqb body counterSubscription then inl counterDoc
  else if String.eqb body counterSubscriptionNL then inl counterDoc
  else if String.eqb body fragmentFirst then inl fragmentFirstDoc
  else if String.eqb body nopeMutation then inl nopeDoc
  else inr "Syntax Error GraphQL request (1:1) Unexpected Name".

Definition formatError (msg : string) : FormattedError :=
  {| Message := msg; Locations := []; Path := []; OriginalError := msg |}.

Definition validate (_ : Schema) (doc : ast.Document)
  : graphql.ValidationResult :=
  if firstOperationIs "mutation" doc then
    {| graphql.IsValid := false;
       graphql.ValidationResult_Errors :=
         [formatError "Schema is not configured for mutations"] |}
  else
    {| graphql.IsValid := true; graphql.ValidationResult_Errors := [] |}.

Definition helloResult : Result :=
  {| graphql.Result_Data := Some (VObject "hello" (VString "world"));
     graphql.Result_Errors := [] |}.

Definition counterResult (n : Z) : Result :=
  {| graphql.Result_Data := Some (VObject "counter" (VInt n));
     graphql.Result_Errors := [] |}.

Definition execute (params : graphql.ExecuteParams Schema Value) : Result :=
  if firstOperationIs "subscription" (graphql.ExecuteParams_AST params) then
    counterResult 1
  else helloResult.

Definition executeSubscription (_ : graphql.ExecuteParams Schema Value)
  : chan Result :=
  [Send (counterResult 1); Send (counterResult 2); Send (counterResult 3);
   Close].

(** What the extension hooks of a request return. *)
Record Hooks : Type := {
  onInit : FormattedErrors;
  onParseStart : FormattedErrors;
  onParseEnd : option error -> FormattedErrors;
  onValidationStart : FormattedErrors;
  onValidationEnd : FormattedErrors -> FormattedErrors
}.

Definition noHooks : Hooks :=
  {| onInit := []; onParseStart := []; onParseEnd := fun _ => [];
     onValidationStart := []; onValidationEnd := fun _ => [] |}.

(** Hooks that refuse a request when parsing starts. *)
Definition failingParseStart : Hooks :=
  {| onInit := []; onParseStart := [formatError "parse refused"];
     onParseEnd := fun _ => [];
     onValidationStart := []; onValidationEnd := fun _ => [] |}.

(** Hooks that report one error of their own when a stage ends in
    failure. *)
Definition reportingHooks : Hooks :=
  {| onInit := []; onParseStart := [];
     onParseEnd := fun err =>
       match err with
       | Some _ => [formatError "parse observed"]
       | None => []
       end;
     onValidationStart := [];
     onValidationEnd := fun verrs =>
       match verrs with
       | [] => []
       | _ :: _ => [formatError "validation observed"]
       end |}.

Definition collaborators (hooks : Hooks)
  : graphql.Collaborators Schema Value :=
  {| graphql.NewSource := fun s => s;
     graphql.handleExtensionsInits := fun p => (p, onInit hooks);
     graphql.handleExtensionsParseDidStart :=
       fun p => (p, onParseStart hooks, onParseEnd hooks);
     graphql.Parse := parse;
     graphql.FormatErrors := map formatError;
     graphql.handleExtensionsValidationDidStart :=
       fun p => (p, onValidationStart hooks, onValidationEnd hooks);
     graphql.ValidateDocument := validate;
     graphql.Execute := execute;
     graphql.ExecuteSubscription := executeSubscription |}.

(** The collaborators of a request without extensions. *)
Abbreviation E0 := (collaborators noHooks).

Definition request (query : string) : Params :=
  {| graphql.Params_Schema := tt;
     graphql.Params_RequestString := query;
     graphql.Params_RootObject := ∅;
     graphql.Params_VariableValues := ∅;
     graphql.Params_OperationName := "";
     graphql.Params_Context := context.Background |}.

(** Frames: the text of a frame with a string id, a type and a payload
    that holds a query. *)
Definition quoted (s : string) : string := dq +:+ s +:+ dq.

Definition payloadText (query : string) : string :=
  "{" +:+ quoted "query" +:+ ":" +:+ quoted query +:+ "}".

Definition frameText (id type query : string) : string :=
  "{" +:+ quoted "id" +:+ ":" +:+ quoted id +:+ ","
      +:+ quoted "type" +:+ ":" +:+ quoted type +:+ ","
      +:+ quoted "payload" +:+ ":" +:+ payloadText query +:+ "}".

Definition knownIds : list string := ["1"; "2"].
Definition knownTypes : list string := ["subscribe"; "start"; "stop"].
Definition knownQueries : list string :=
  [helloQuery; counterSubscription; "\nsubscription { counter }";
   fragmentFirst; nopeMutation].

Definition knownFrames
  : list (string * handler.GraphQLWSMessage any) :=
  id ← knownIds; type ← knownTypes; query ← knownQueries;
  [(frameText id type query,
    {| handler.ID := Some id; handler.Type_ := type;
       handler.Payload := payloadText query |})].

Definition knownPayloads
  : list (string * handler.GraphQLWSSubscriptionPayload Value) :=
  query ← knownQueries;
  [(payloadText query,
    {| handler.OperationName := ""; handler.Query := query;
       handler.Variables := ∅; handler.Extensions := ∅ |})].

Fixpoint lookupText {A : Type} (table : list (string * A)) (text : string)
  : A + error :=
  match table with
  | [] => inr "invalid character"
  | (t, a) :: table' =>
      if String.eqb t text then inl a else lookupText table' text
  end.

(** JSON strings escape a newline as a backslash and the letter n. *)
Definition unescape (query : string) : string :=
  if String.eqb query "\nsubscription { counter }"
  then counterSubscriptionNL else query.

Fixpoint marshalValue (v : Value) : string :=
  match v with
  | VString s => quoted s
  | VInt z => NilZero.string_of_int (Z.to_int z)
  | VObject field v => "{" +:+ quoted field +:+ ":" +:+ marshalValue v +:+ "}"
  end.

Fixpoint marshalMessages (errs : FormattedErrors) : string :=
  match errs with
  | [] => ""
  | [e] => "{" +:+ quoted "message" +:+ ":" +:+ quoted (Message e) +:+ "}"
  | e :: errs' =>
      "{" +:+ quoted "message" +:+ ":" +:+ quoted (Message e) +:+ "},"
          +:+ marshalMessages errs'
  end.

Definition marshalResult (r : option Result) : string :=
  match r with
  | None => "null"
  | Some r =>
      "{" +:+ quoted "data" +:+ ":"
          +:+ match graphql.Result_Data r with
              | Some v => marshalValue v
              | None => "null"
              end
          +:+ match graphql.Result_Errors r with
              | [] => ""
              | errs =>
                  "," +:+ quoted "errors" +:+ ":[" +:+ marshalMessages errs +:+ "]"
              end
          +:+ "}"
  end.

Definition codec : handler.Codec Value any :=
  {| handler.Unmarshal_message := lookupText knownFrames;
     handler.Unmarshal_payload := fun raw =>
       match lookupText knownPayloads raw with
       | inl payload =>
           inl {| handler.OperationName := handler.OperationName payload;
                  handler.Query := unescape (handler.Query payload);
                  handler.Variables := handler.Variables payload;
                  handler.Extensions := handler.Extensions payload |}
       | inr err => inr err
       end;
     handler.Unmarshal_headers := fun _ => inr "unexpected end of JSON input";
     handler.Marshal_result := marshalResult;
     handler.Marshal_string := quoted;
     handler.Sprintf_v := fun id =>
       match id with Some s => s | None => "<nil>" end |}.

Definition theHandler : handler.Handler Schema :=
  {| handler.Handler_Schema := tt;
     handler.formatErrorFn := None;
     handler.ModifyContextOnHeaders := None |}.

Definition conn0 : handler.Conn Schema Value any :=
  handler.newConn context.Background.

End demo.

(** ** Package handler (handler.go): configuration and routing *)
Module handler_http.
Import context gqlerrors.

(** Which of the two handlers [ServeHTTP] calls, and with which
    context. *)
Inductive Served : Type :=
| ServedByContextWebsocketHandler (ctx : Context)
| ServedByContextHandler (ctx : Context).

Section Http.
(** [RootObjectFn] and [ResultCallbackFn] are function values that the
    code of this file only stores. *)
Context {Schema RootObjectFn ResultCallbackFn : Type}.

(** A pointer field is an option: [None] is nil. *)
Record Handler : Type := {
  Schema_ : option Schema;
  pretty : bool;
  graphiql : bool;
  playground : bool;
  websocket : bool;
  rootObjectFn : option RootObjectFn;
  resultCallbackFn : option ResultCallbackFn;
  formatErrorFn : option (error -> FormattedError)
}.

Record Config : Type := {
  Config_Schema : option Schema;
  Pretty : bool;
  GraphiQL : bool;
  Playground : bool;
  WebSocket : bool;
  Config_RootObjectFn : option RootObjectFn;
  Config_ResultCallbackFn : option ResultCallbackFn;
  FormatErrorFn : option (error -> FormattedError)
}.

Definition NewConfig : Config := {|
  Config_Schema := None;
  Pretty := true;
  GraphiQL := false;
  Playground := true;
  WebSocket := true;
  Config_RootObjectFn := None;
  Config_ResultCallbackFn := None;
  FormatErrorFn := None
|}.

(** [New] takes a pointer to a [Config]. *)
Definition New (p : option Config) : handler.Outcome Handler :=
  let p := match p with None => NewConfig | Some p => p end in
  match Config_Schema p with
  | None => handler.Panic "undefined GraphQL schema"
  | Some schema =>
      handler.Done {|
        Schema_ := Some schema;
        pretty := Pretty p;
        graphiql := GraphiQL p;
        websocket := WebSocket p;
        playground := Playground p;
        rootObjectFn := Config_RootObjectFn p;
        resultCallbackFn := Config_ResultCallbackFn p;
        formatErrorFn := FormatErrorFn p
      |}
  end.

(** The part of [http.Request] that [ServeHTTP] reads: the header, under
    canonical keys, and the context of the request. *)
Record Request : Type := {
  Header : gmap string (list string);
  Request_Context : Context
}.

(** [Header.Get]: the first value under the key, or the empty string. *)
Definition Header_Get (r : Request) (key : string) : string :=
  match Header r !! key with
  | Some (v :: _) => v
  | _ => EmptyString
  end.

Definition ServeHTTP (h : Handler) (r : Request) : Served :=
  if String.eqb (Header_Get r "Upgrade") "websocket" && websocket h then
    ServedByContextWebsocketHandler Background
  else
    ServedByContextHandler (Request_Context r).

End Http.

Arguments Handler : clear implicits.
Arguments Config : clear implicits.

End handler_http.

(** ** The [Params] a subscribe or start frame is run with *)
Module start_frame.
Import context handler.

Section Params.
Context {Schema Value : Type}.
Variable h : Handler Schema.

Definition startParams (payload : GraphQLWSSubscriptionPayload Value)
    (cancellableCtx : Context) : graphql.Params Schema Value :=
  {| graphql.Params_Schema := Handler_Schema h;
     graphql.Params_RequestString := Query payload;
     graphql.Params_RootObject := ∅;
     graphql.Params_VariableValues := Variables payload;
     graphql.Params_OperationName := OperationName payload;
     graphql.Params_Context := cancellableCtx |}.

(** The data frame written for one Result. *)
Definition dataFrame {any : Type} (C : Codec Value any)
    (msg : GraphQLWSMessage any) (type : string)
    (result : graphql.Result Value) : GraphQLWSMessage any :=
  {| ID := ID msg;
     Type_ := type;
     Payload := Marshal_result C (Some result) |}.

End Params.
End start_frame.

(** ** The handler of the file without name that keeps the registry in the
    [Handler] and serves start frames only (part_001)

    [h.subscriptionCancellers] is the registry of the state; the types and
    the cases for stop frames and for the teardown are those of
    websocket.go. *)
Module part_001.
Import context gqlerrors handler.

Section Handler.
Context {Schema Value any : Type}.
Variable h : Handler Schema.
Variable C : Codec Value any.
Variable E : graphql.Collaborators Schema Value.

(** The case "start": every request goes through [DoAsync] and the loop
    over its channel. *)
Definition handleStart (msg : GraphQLWSMessage any)
  : H (Schema:=Schema) (Value:=Value) (any:=any) unit :=
  match Unmarshal_payload C (Payload msg) with
  | inr err =>
      WriteJSON {| ID := None; Type_ := "error";
                   Payload := Marshal_string C err |}
  | inl payload =>
      bind (registerSession C (ID msg)) (fun r =>
      let '(cancellableCtx, cancel) := r in
      let params := start_frame.startParams h payload cancellableCtx in
      bind (runDoAsync E params) (fun ch =>
      forRange ch (fun result =>
        WriteJSON {| ID := ID msg;
                     Type_ := "data";
                     Payload := Marshal_result C (Some result) |})))
  end.

(** The goroutine started for one inbound message. *)
Definition handleMessage (message : string)
  : H (Schema:=Schema) (Value:=Value) (any:=any) unit :=
  match Unmarshal_message C message with
  | inr err =>
      WriteJSON {| ID := None; Type_ := "error";
                   Payload := Marshal_string C err |}
  | inl msg =>
      if String.eqb (Type_ msg) "connection_init" then
        WriteJSON {| ID := None; Type_ := "connection_ack";
                     Payload := EmptyString |}
      else if String.eqb (Type_ msg) "start" then handleStart msg
      else if String.eqb (Type_ msg) "stop" then handleStop C msg
      else ret tt
  end.

End Handler.
End part_001.

(** ** More frames and a handler that reads headers *)
Module demo_more.
Import gqlerrors demo.

(** A subscription whose text does not parse. *)
Definition brokenSubscription : string := "subscription { counter".

Definition moreQueries : list string := knownQueries ++ [brokenSubscription].

Definition moreTypes : list string := knownTypes ++ ["complete"].

Definition headersText : string :=
  "{" +:+ quoted "authorization" +:+ ":" +:+ quoted "token" +:+ "}".

Definition initFrame : string :=
  "{" +:+ quoted "type" +:+ ":" +:+ quoted "connection_init" +:+ ","
      +:+ quoted "payload" +:+ ":" +:+ headersText +:+ "}".

Definition moreFrames : list (string * handler.GraphQLWSMessage any) :=
  (initFrame,
   {| handler.ID := None; handler.Type_ := "connection_init";
      handler.Payload := headersText |})
  :: (id ← knownIds; type ← moreTypes; query ← moreQueries;
      [(frameText id type query,
        {| handler.ID := Some id; handler.Type_ := type;
           handler.Payload := payloadText query |})]).

Definition morePayloads
  : list (string * handler.GraphQLWSSubscriptionPayload Value) :=
  query ← moreQueries;
  [(payloadText query,
    {| handler.OperationName := ""; handler.Query := unescape query;
       handler.Variables := ∅; handler.Extensions := ∅ |})].

Definition codec2 : handler.Codec Value any :=
  {| handler.Unmarshal_message := lookupText moreFrames;
     handler.Unmarshal_payload := lookupText morePayloads;
     handler.Unmarshal_headers := fun raw =>
       if String.eqb raw headersText
       then inl (<["authorization" := "token"]> ∅)
       else inr "json: cannot unmarshal into Go value of type map[string]string";
     handler.Marshal_result := marshalResult;
     handler.Marshal_string := quoted;
     handler.Sprintf_v := fun id =>
       match id with Some s => s | None => "<nil>" end |}.

(** A handler that puts the headers of the client into the context. *)
Definition headerHandler : handler.Handler Schema :=
  {| handler.Handler_Schema := tt;
     handler.formatErrorFn := None;
     handler.ModifyContextOnHeaders := Some context.Modified |}.

Definition payloadOf (query : string)
  : handler.GraphQLWSSubscriptionPayload Value :=
  {| handler.OperationName := ""; handler.Query := query;
     handler.Variables := ∅; handler.Extensions := ∅ |}.

(** The stream the executor of the example gives for a subscription. *)
Definition counterStream : chan Result :=
  [Send (counterResult 1); Send (counterResult 2); Send (counterResult 3);
   Close].

Definition msg (id type query : string) : handler.GraphQLWSMessage any :=
  {| handler.ID := Some id; handler.Type_ := type;
     handler.Payload := payloadText query |}.

(** A connection with one session, registered under the id 1. *)
Definition conn1 : handler.Conn Schema Value any :=
  (handler.registerSession codec2 (Some "1") conn0).2.

Definition upgradeRequest : handler_http.Request :=
  {| handler_http.Header := <["Upgrade" := ["websocket"]]> ∅;
     handler_http.Request_Context := context.Modified context.Background ∅ |}.

Definition schemaConfig : handler_http.Config Schema unit unit :=
  {| handler_http.Config_Schema := Some tt;
     handler_http.Pretty := true;
     handler_http.GraphiQL := false;
     handler_http.Playground := false;
     handler_http.WebSocket := true;
     handler_http.Config_RootObjectFn := None;
     handler_http.Config_ResultCallbackFn := None;
     handler_http.FormatErrorFn := None |}.

End demo_more.

(** * The statements of the specification *)

Module spec.
Import gqlerrors graphql.

Fixpoint count (f : Event -> bool) (t : list Event) : nat :=
  match t with
  | [] => 0
  | e :: t' => (if f e then 1 else 0) + count f t'
  end.

Definition parseFinishCalls : list Event -> nat :=
  count (fun e => match e with EvParseFinish _ _ => true | _ => false end).

Definition validationFinishCalls : list Event -> nat :=
  count (fun e => match e with EvValidationFinish _ _ => true | _ => false end).

(** A run got past validation: the document was valid and the
    validation-finish hooks returned no error. *)
Definition validated (t : list Event) : Prop :=
  EvValidateDocument true ∈ t ∧ ∃ verrs, EvValidationFinish verrs [] ∈ t.

Section Statements.
Context {Schema Value : Type}.
Variable E : Collaborators Schema Value.

Definition singleOperation (AST : ast.Document) : Prop :=
  ∃ d, ast.Definitions AST = [ast.N_OperationDefinition d]
       ∧ (ast.Operation d = "query" ∨ ast.Operation d = "mutation").

(** "Exactly one Result, and the stream then closes." *)
Definition OneResultThenClosed (p : Params Schema Value) : Prop :=
  ∀ AST,
    Parse E (parseParams E p) = inl AST ->
    singleOperation AST ->
    validated (trace (do E p true)) ->
    ∃ ch r, outcome (do E p true) = Returned ch
            ∧ delivered ch = [r]
            ∧ closes ch = true.

(** "Each stage's finish function is invoked exactly once, whether the
    stage succeeded or failed." *)
Definition FinishAlwaysCalledOnce (p : Params Schema Value)
    (skipSubscriptions : bool) : Prop :=
  let t := trace (do E p skipSubscriptions) in
  (∀ errs, EvParseDidStart errs ∈ t -> parseFinishCalls t = 1)
  ∧ (∀ errs, EvValidationDidStart errs ∈ t -> validationFinishCalls t = 1).

(** The condition under which the streaming strategy is to run. *)
Definition streamingCase (AST : ast.Document) (skipSubscriptions : bool)
  : Prop :=
  skipSubscriptions = false
  ∧ ∃ d, ast.Definitions AST !! 0%nat = Some (ast.N_OperationDefinition d)
         ∧ ast.Operation d = "subscription".

(** "The streaming strategy runs in the streaming case, and in every
    other case the single-result strategy runs." *)
Definition StreamingOrSingle (params : ExecuteParams Schema Value)
    (AST : ast.Document) (skipSubscriptions : bool) : Prop :=
  let r := dispatch E params AST skipSubscriptions in
  (streamingCase AST skipSubscriptions ->
     r = ([EvExecuteSubscription], Returned (ExecuteSubscription E params)))
  ∧ (¬ streamingCase AST skipSubscriptions ->
     r = ([EvGoExecute], Returned (singleEventChannel (Execute E params)))).

End Statements.
End spec.

Module handler_spec.
Import context handler.

Section Statements.
Context {Schema Value any : Type}.
Variable C : Codec Value any.
Variable E : graphql.Collaborators Schema Value.

(** "After every register operation exactly one live session remains
    under the id." *)
Definition OneLiveSessionPerId (st : Conn Schema Value any)
    (id : option any) : Prop :=
  length (liveSessions (Sprintf_v C id) (registerSession C id st).2) = 1.

(** "The query text is a subscription document: its first operation is
    of kind subscription." *)
Definition firstOperation (AST : ast.Document)
  : option ast.OperationDefinition :=
  head (omap ast.asOperationDefinition (ast.Definitions AST)).

Definition isSubscriptionDocument (p : graphql.Params Schema Value)
  : bool :=
  match graphql.Parse E (graphql.parseParams E p) with
  | inl AST =>
      match firstOperation AST with
      | Some d => String.eqb (ast.Operation d) "subscription"
      | None => false
      end
  | inr _ => false
  end.

End Statements.

(** "The probe interval is strictly less than half the read timeout." *)
Definition ProbeBelowHalfTimeout : Prop :=
  (pingPeriod < pongWait `quot` 2)%Z.

End handler_spec.

(** * Proof steps shared by the proofs below *)
Module tactics.
Import gqlerrors graphql.

(** Unfold a run of the pipeline and split on what the collaborators
    return. *)
Ltac run :=
  unfold Do, DoAsync, do, dispatch, isStreaming, wrapErr, bind, emit, ret,
    panic, trace, outcome, singleEventChannel;
  simpl; repeat (case_match; simplify_eq/=).

(** Membership in an explicit list of events. *)
Ltac inv_in H :=
  repeat (apply elem_of_cons in H as [H|H]; simplify_eq/=);
  try (apply elem_of_nil in H; destruct H).

(** Use the equations on booleans and lists among the hypotheses. *)
Ltac tidy :=
  repeat match goal with
  | H : _ = _ |- _ => discriminate H
  | H : ?x = ?x |- _ => clear H
  | H : true = _ |- _ => symmetry in H
  | H : false = _ |- _ => symmetry in H
  | H : [] = _ |- _ => symmetry in H
  | H : ?x = true, H' : context [?x] |- _ => rewrite H in H'; simpl in H'
  | H : ?x = false, H' : context [?x] |- _ => rewrite H in H'; simpl in H'
  | H : ?x = [], H' : context [?x] |- _ => rewrite H in H'; simpl in H'
  end.

Ltac rw_goal :=
  repeat match goal with
  | H : ?x = true |- context [?x] => rewrite H
  | H : ?x = false |- context [?x] => rewrite H
  | H : ?x = [] |- context [?x] => rewrite H
  end.

Ltac find_in :=
  repeat first [ exact (list_elem_of_here _ _)
               | apply list_elem_of_here
               | apply list_elem_of_further ].

(** Evaluate the trace of a run on concrete collaborators. *)
Ltac eval_trace :=
  repeat match goal with
  | |- context [trace ?m] =>
      let t := eval vm_compute in (trace m) in
      change (trace m) with t
  end.

End tactics.

Module tactics_more.
Import gqlerrors graphql tactics.

(** Turn the tests on the length of an error list into equations. *)
Ltac lens :=
  repeat match goal with
  | H : negb (length ?l =? 0)%nat = false |- _ =>
      destruct l eqn:?; simpl in H; [clear H|discriminate H]
  | H : negb (length ?l =? 0)%nat = true |- _ =>
      destruct l eqn:?; simpl in H; [discriminate H|clear H]
  | H : negb ?b = true |- _ => apply negb_true_iff in H
  | H : negb ?b = false |- _ => apply negb_false_iff in H
  end.

Ltac not_in := let Hin := fresh "Hin" in intros Hin; inv_in Hin.

End tactics_more.

(** * The pipeline *)
Module graphql_facts.
Import gqlerrors graphql spec tactics.

Section Facts.
Context {Schema Value : Type}.
Variable E : Collaborators Schema Value.
Implicit Types (p : Params Schema Value) (AST : ast.Document).

(** With [skipSubscriptions] set, every path of [do] ends in a channel
    with one send and no close. *)
Lemma do_skip_single p :
  ∃ r, outcome (do E p true) = Returned [Send r].
Proof. run; eauto. Qed.

(** The dispatch records nothing but the strategy it starts. *)
Lemma dispatch_trace params AST skip l o e :
  dispatch E params AST skip = (l, o) ->
  e ∈ l -> e = EvExecuteSubscription ∨ e = EvGoExecute.
Proof.
  unfold dispatch, isStreaming, bind, emit, ret, panic. simpl.
  repeat (case_match; simplify_eq/=); intros ? Hin; simplify_eq/=;
    inv_in Hin; auto.
Qed.

(** What a validated run is: the calls of the stages, then the
    dispatch. The calls of the stages do not depend on
    [skipSubscriptions]. *)
Lemma do_validated p skip :
  validated (trace (do E p skip)) ->
  ∃ AST params pre,
    Parse E (parseParams E p) = inl AST
    ∧ validated pre
    ∧ ∀ skip', do E p skip' =
        (pre ++ trace (dispatch E params AST skip'),
         outcome (dispatch E params AST skip')).
Proof.
  intros [Hv [verrs Hf]]. revert Hv Hf.
  unfold do, wrapErr, bind, emit, ret, trace, outcome. simpl.
  repeat (case_match; simplify_eq/=); intros Hv Hf;
    inv_in Hv; inv_in Hf; tidy;
    try match goal with
        | Hd : dispatch _ _ _ _ = (?l, _), Hin : _ ∈ ?l |- _ =>
            destruct (dispatch_trace _ _ _ _ _ _ Hd Hin); discriminate
        end.
  match goal with
  | |- context [dispatch E ?pa ?ast _] => exists ast, pa
  end.
  eexists. split; [assumption|]. split; cycle 1.
  - intros skip'. destruct (dispatch _ _ _ skip') as [td od]. simpl.
    f_equal.
    match goal with
    | |- ?e1 :: ?e2 :: ?e3 :: ?e4 :: ?e5 :: ?e6 :: ?e7 :: ?t = _ =>
        exact (eq_refl ([e1; e2; e3; e4; e5; e6; e7] ++ t))
    end.
  - rw_goal. split; [|eexists]; find_in.
Qed.

(** C10: the dispatch is not total over valid documents. When the request
    gets past validation and the first definition of its document is not
    an operation definition, [DoAsync] panics at the type assertion, while
    [Do] does not evaluate the assertion: it starts [Execute] and returns
    its one Result. *)
Theorem dispatch_not_total p AST n :
  Parse E (parseParams E p) = inl AST ->
  ast.Definitions AST !! 0%nat = Some n ->
  ast.isOperationDefinition n = false ->
  validated (trace (DoAsync E p)) ->
  (∃ msg, outcome (DoAsync E p) = Panicked msg)
  ∧ (∃ r, outcome (Do E p) = Returned (DoReturns (Some r))
          ∧ EvGoExecute ∈ trace (Do E p)).
Proof.
  intros HP Hn Hop Hval.
  destruct (do_validated _ _ Hval) as (AST' & params & pre & HP' & _ & Hdo).
  rewrite HP in HP'. simplify_eq.
  assert (Hlen : bool_decide (0 < length (ast.Definitions AST')) = true).
  { apply bool_decide_eq_true. apply lookup_lt_Some in Hn. lia. }
  unfold ast.isOperationDefinition in Hop.
  split.
  - unfold DoAsync. rewrite Hdo.
    unfold dispatch, isStreaming, outcome, bind, panic. simpl.
    rewrite Hlen, Hn. destruct (ast.asOperationDefinition n); [done|].
    simpl. eauto.
  - unfold Do. rewrite Hdo.
    unfold dispatch, isStreaming, outcome, trace, bind, emit, ret. simpl.
    eexists. split; [reflexivity|].
    set_solver.
Qed.

(** The streaming strategy is called exactly in the streaming case. *)
Lemma dispatch_streaming_iff params AST skip :
  EvExecuteSubscription ∈ trace (dispatch E params AST skip)
  ↔ streamingCase AST skip.
Proof.
  unfold streamingCase, dispatch, isStreaming, trace, bind, emit, ret,
    panic, ast.asOperationDefinition.
  destruct skip; simpl; [split; [intros Hin; inv_in Hin|intros [? _]; done]|].
  destruct (ast.Definitions AST) as [|n defs] eqn:Hdefs; simpl.
  { split; [intros Hin; inv_in Hin|intros [_ (d & ? & _)]; done]. }
  destruct n; simpl;
    try (split; [intros Hin; inv_in Hin|intros [_ (d' & ? & _)]; done]).
  destruct (String.eqb (ast.Operation d) "subscription") eqn:Hop; simpl.
  - apply String.eqb_eq in Hop. split; [|intros; find_in].
    intros _. split; [done|]. eauto.
  - apply String.eqb_neq in Hop.
    split; [intros Hin; inv_in Hin|intros [_ (d' & ? & ?)]; congruence].
Qed.

Lemma dispatch_streaming params AST skip :
  streamingCase AST skip ->
  dispatch E params AST skip =
    ([EvExecuteSubscription], Returned (ExecuteSubscription E params)).
Proof.
  intros [-> (d & Hd & Hop)].
  unfold dispatch, isStreaming, bind, emit, ret. simpl.
  assert (Hlen : bool_decide (0 < length (ast.Definitions AST)) = true).
  { apply bool_decide_eq_true. apply lookup_lt_Some in Hd. lia. }
  rewrite Hlen, Hd. simpl. rewrite Hop. reflexivity.
Qed.

(** Where the first definition is an operation, or there is none, or
    [skipSubscriptions] is set, every case but the streaming case runs
    [Execute] on a goroutine. *)
Lemma dispatch_single params AST skip :
  skip = true
  ∨ ast.Definitions AST = []
  ∨ (∃ d, ast.Definitions AST !! 0%nat = Some (ast.N_OperationDefinition d)
          ∧ ast.Operation d ≠ "subscription") ->
  dispatch E params AST skip =
    ([EvGoExecute], Returned (singleEventChannel (Execute E params))).
Proof.
  unfold dispatch, isStreaming, bind, emit, ret.
  intros [-> | [Hnil | (d & Hd & Hop)]]; simpl; [done| |].
  - rewrite Hnil. by destruct skip.
  - destruct skip; [done|]. simpl.
    assert (Hlen : bool_decide (0 < length (ast.Definitions AST)) = true).
    { apply bool_decide_eq_true. apply lookup_lt_Some in Hd. lia. }
    rewrite Hlen, Hd. simpl.
    apply String.eqb_neq in Hop. rewrite Hop. reflexivity.
Qed.

Lemma Do_returns p :
  ∃ r, outcome (do E p true) = Returned [Send r]
       ∧ outcome (Do E p) = Returned (DoReturns (Some r)).
Proof.
  destruct (do_skip_single p) as [r Hr]. exists r. split; [done|].
  revert Hr. unfold Do, bind, outcome.
  destruct (do E p true) as [t [ch|msg]]; simpl; intros; simplify_eq.
  reflexivity.
Qed.

(** C1, as the code has it: for every request, and so for every request
    whose query parses and validates as a single query or mutation, the run
    with [skipSubscriptions] set returns a channel that delivers exactly
    one Result and nothing after it. The channel is never closed: once the
    one Result is received a further receive waits forever, and a loop over
    the channel does not end. [Do] receives that one Result and returns
    it. *)
Theorem single_result_channel_never_closed p :
  ∃ ch r,
    outcome (do E p true) = Returned ch
    ∧ delivered ch = [r]
    ∧ closes ch = false
    ∧ recv ch = Received r []
    ∧ recv ([] : chan (Result Value)) = BlocksForever
    ∧ outcome (Do E p) = Returned (DoReturns (Some r)).
Proof.
  destruct (Do_returns p) as (r & Hdo & HDo).
  exists [Send r], r. repeat split; done.
Qed.

(** C3, as the code has it: the finish function of a stage is called
    exactly once when the start hooks of that stage returned no error,
    whether the stage then succeeds or fails and whatever the finish hooks
    return; when the start hooks of the stage return errors, [do] returns
    the failed Result at once and the finish function is not called. *)
Theorem finish_called_once_after_clean_start p skip :
  (∀ errs, EvParseDidStart errs ∈ trace (do E p skip) ->
     parseFinishCalls (trace (do E p skip))
     = match errs with [] => 1 | _ => 0 end)
  ∧ (∀ errs, EvValidationDidStart errs ∈ trace (do E p skip) ->
       validationFinishCalls (trace (do E p skip))
       = match errs with [] => 1 | _ => 0 end).
Proof.
  unfold parseFinishCalls, validationFinishCalls.
  run; (split; intros errs Hin); inv_in Hin; tidy;
    repeat match goal with
           | H : negb (length ?l =? 0)%nat = _ |- _ =>
               destruct l; simpl in H; try discriminate H; clear H
           end;
    try reflexivity.
Qed.

(** C7: when parsing fails, the errors of the failed Result are the errors
    of the parse-finish hooks followed by the formatted parser error; when
    validation fails, they are the errors of the validation-finish hooks
    followed by the validation errors. Both lists keep their order. *)
Theorem hook_errors_precede_stage_errors p skip :
  (∀ err hookErrs,
     EvParseFinish (Some err) hookErrs ∈ trace (do E p skip) ->
     outcome (do E p skip) =
       Returned (singleEventChannel
         {| Result_Data := None;
            Result_Errors := hookErrs ++ FormatErrors E [err] |}))
  ∧ (∀ verrs hookErrs,
       EvValidateDocument false ∈ trace (do E p skip) ->
       EvValidationFinish verrs hookErrs ∈ trace (do E p skip) ->
       outcome (do E p skip) =
         Returned (singleEventChannel
           {| Result_Data := None;
              Result_Errors := hookErrs ++ verrs |})).
Proof.
  run; (split; [intros err hookErrs Hin|intros verrs hookErrs Hv Hin]);
    inv_in Hin; try inv_in Hv; tidy; try reflexivity.
Qed.

End Facts.
End graphql_facts.

Module graphql_examples.
Import gqlerrors graphql spec tactics graphql_facts demo.

(** C1 fails as stated: the channel of the query [{ hello }] delivers its
    one Result and is not closed. *)
Lemma hello_query_channel_not_closed :
  ¬ OneResultThenClosed (collaborators noHooks) (request helloQuery).
Proof.
  intros Hclaim.
  assert (Hsingle : singleOperation helloDoc).
  { exists {| ast.Operation := "query" |}. split; [reflexivity|by left]. }
  assert (Hvalid : validated
            (trace (do (collaborators noHooks) (request helloQuery) true))).
  { split; [|exists []]; eval_trace; find_in. }
  destruct (Hclaim helloDoc eq_refl Hsingle Hvalid) as (ch & r & Hch & Hrange).
  vm_compute in Hch. injection Hch as <-. destruct Hrange as [_ Hc].
  discriminate Hc.
Qed.

(** C3 fails as stated: when the parse-start hooks return an error, the
    parse-finish function is not called. *)
Lemma parse_finish_skipped_when_start_fails :
  ¬ FinishAlwaysCalledOnce (collaborators failingParseStart)
      (request helloQuery) true.
Proof.
  intros [Hparse _].
  specialize (Hparse [formatError "parse refused"]).
  revert Hparse. eval_trace. intros Hparse.
  enough (0 = 1) by done. apply Hparse. find_in.
Qed.

(** The statement of C3 on the query [{ hello }] without extensions. *)
Lemma finish_called_once_hello :
  (EvParseDidStart []
     ∈ trace (do (collaborators noHooks) (request helloQuery) true)
   ∧ parseFinishCalls
       (trace (do (collaborators noHooks) (request helloQuery) true)) = 1)
  ∧ (EvValidationDidStart []
       ∈ trace (do (collaborators noHooks) (request helloQuery) true)
     ∧ validationFinishCalls
         (trace (do (collaborators noHooks) (request helloQuery) true)) = 1).
Proof.
  pose proof (finish_called_once_after_clean_start
                (collaborators noHooks) (request helloQuery) true) as [Hp Hv].
  assert (H1 : EvParseDidStart []
     ∈ trace (do (collaborators noHooks) (request helloQuery) true)).
  { eval_trace. find_in. }
  assert (H2 : EvValidationDidStart []
     ∈ trace (do (collaborators noHooks) (request helloQuery) true)).
  { eval_trace. find_in. }
  exact (conj (conj H1 (Hp [] H1)) (conj H2 (Hv [] H2))).
Defined.

(** C2 on a document whose first definition is a fragment: the request
    parses and validates, it is not in the streaming case, and [DoAsync]
    panics; neither [ExecuteSubscription] nor [Execute] is started. *)
Theorem fragment_first_async_runs_no_strategy :
  Parse E0 (parseParams E0 (request fragmentFirst))
    = inl fragmentFirstDoc
  ∧ validated (trace (DoAsync E0 (request fragmentFirst)))
  ∧ ¬ streamingCase fragmentFirstDoc false
  ∧ outcome (DoAsync E0 (request fragmentFirst))
    = Panicked
        "interface conversion: ast.Node is not *ast.OperationDefinition"
  ∧ (EvExecuteSubscription
       ∉ trace (DoAsync E0 (request fragmentFirst)))
  ∧ (EvGoExecute
       ∉ trace (DoAsync E0 (request fragmentFirst)))
  ∧ (∀ params, ¬ StreamingOrSingle E0 params fragmentFirstDoc false).
Proof.
  assert (Hcase : ¬ streamingCase fragmentFirstDoc false).
  { intros [_ (d & Hd & _)]. discriminate Hd. }
  split; [reflexivity|].
  split; [split; [|exists []]; eval_trace; find_in|].
  split; [exact Hcase|].
  split; [reflexivity|].
  split; [eval_trace; intros Hin; inv_in Hin|].
  split; [eval_trace; intros Hin; inv_in Hin|].
  intros params [_ Hsingle]. specialize (Hsingle Hcase).
  discriminate Hsingle.
Qed.

(** The statement of C10 on that document. *)
Lemma fragment_first_panics_async_only :
  (Parse E0 (parseParams E0 (request fragmentFirst))
     = inl fragmentFirstDoc
   ∧ ast.Definitions fragmentFirstDoc !! 0%nat = Some ast.N_FragmentDefinition
   ∧ ast.isOperationDefinition ast.N_FragmentDefinition = false
   ∧ validated
       (trace (DoAsync E0 (request fragmentFirst))))
  ∧ ((∃ msg, outcome (DoAsync E0 (request fragmentFirst))
             = Panicked msg)
     ∧ (∃ r, outcome (Do E0 (request fragmentFirst))
             = Returned (DoReturns (Some r))
             ∧ EvGoExecute
                 ∈ trace (Do E0 (request fragmentFirst)))).
Proof.
  assert (Hvalid : validated
            (trace (DoAsync E0 (request fragmentFirst)))).
  { split; [|exists []]; eval_trace; find_in. }
  split; [split; [reflexivity|split; [reflexivity|split; [reflexivity|exact Hvalid]]]|].
  exact (graphql_facts.dispatch_not_total E0 (request fragmentFirst)
           fragmentFirstDoc ast.N_FragmentDefinition
           eq_refl eq_refl eq_refl Hvalid).
Defined.

(** The statement of C7 on a text that does not parse and on a mutation
    that does not validate, with hooks that report an error of their own
    when a stage fails. *)
Lemma reported_errors_come_first :
  (EvParseFinish (Some "Syntax Error GraphQL request (1:1) Unexpected Name")
      [formatError "parse observed"]
     ∈ trace (do (collaborators reportingHooks)
                        (request "hello") true)
   ∧ outcome (do (collaborators reportingHooks)
                        (request "hello") true)
     = Returned
         [Send {| Result_Data := None;
                  Result_Errors :=
                    [formatError "parse observed";
                     formatError
                       "Syntax Error GraphQL request (1:1) Unexpected Name"] |}])
  ∧ (EvValidateDocument false
       ∈ trace (do (collaborators reportingHooks)
                          (request nopeMutation) true)
     ∧ EvValidationFinish
         [formatError "Schema is not configured for mutations"]
         [formatError "validation observed"]
       ∈ trace (do (collaborators reportingHooks)
                          (request nopeMutation) true)
     ∧ outcome (do (collaborators reportingHooks)
                          (request nopeMutation) true)
       = Returned
           [Send {| Result_Data := None;
                    Result_Errors :=
                      [formatError "validation observed";
                       formatError
                         "Schema is not configured for mutations"] |}]).
Proof.
  assert (H1 : EvParseFinish
                 (Some "Syntax Error GraphQL request (1:1) Unexpected Name")
                 [formatError "parse observed"]
               ∈ trace (do (collaborators reportingHooks)
                                  (request "hello") true)).
  { eval_trace. find_in. }
  assert (H2 : EvValidateDocument false
               ∈ trace (do (collaborators reportingHooks)
                                  (request nopeMutation) true)).
  { eval_trace. find_in. }
  assert (H3 : EvValidationFinish
                 [formatError "Schema is not configured for mutations"]
                 [formatError "validation observed"]
               ∈ trace (do (collaborators reportingHooks)
                                  (request nopeMutation) true)).
  { eval_trace. find_in. }
  split.
  - split; [exact H1|].
    exact (proj1 (graphql_facts.hook_errors_precede_stage_errors
                    (collaborators reportingHooks) (request "hello") true)
             _ _ H1).
  - split; [exact H2|]. split; [exact H3|].
    exact (proj2 (graphql_facts.hook_errors_precede_stage_errors
                    (collaborators reportingHooks) (request nopeMutation) true)
             _ _ H2 H3).
Defined.

End graphql_examples.

(** * The websocket handler *)
Module handler_facts.
Import context gqlerrors handler handler_spec.

Section Facts.
Context {Schema Value any : Type}.
Implicit Types (st : Conn Schema Value any).

(** The teardown loop over a list of entries that are all still in the
    registry: every one is deleted and its cancel function called, in
    the order of the list. *)
Lemma RangeOver_cancelAndDelete entries st :
  NoDup entries.*1 ->
  (∀ k c, (k, c) ∈ entries -> subscriptionCancellers st !! k = Some c) ->
  ∃ st',
    RangeOver cancelAndDelete entries st = (Done tt, st')
    ∧ (∀ k, subscriptionCancellers st' !! k =
            if decide (k ∈ entries.*1) then None
            else subscriptionCancellers st !! k)
    ∧ cancelled st' = cancelled st ++ entries.*2
    ∧ tickerStopped st' = tickerStopped st
    ∧ connClosed st' = connClosed st.
Proof.
  revert st. induction entries as [|[k c] entries IH]; intros st Hnd Hin.
  - exists st. simpl. rewrite app_nil_r. repeat split; try done.
  - simpl in Hnd. apply NoDup_cons in Hnd as [Hk Hnd].
    simpl. unfold bind at 1, Load at 1.
    rewrite (Hin k c) by left.
    unfold cancelAndDelete, bind, Delete, call, modify, ret. simpl.
    destruct (IH (setCancelled (cancelled st ++ [c])
                    (setRegistry (delete k (subscriptionCancellers st)) st)))
      as (st' & Hrun & Hreg & Hcan & Ht & Hc); [done| |].
    { intros k' c' Hin'. simpl.
      rewrite lookup_delete_ne.
      - apply Hin. by right.
      - intros ->. apply Hk. apply list_elem_of_fmap. by exists (k', c'). }
    exists st'. split; [exact Hrun|].
    split; [|split; [|split; [by rewrite Ht|by rewrite Hc]]].
    + intros k'. rewrite Hreg. simpl.
      repeat case_decide; try done.
      * rename select (k' ∉ _ :: _) into Hj. exfalso. apply Hj. by right.
      * rename select (k' ∈ _ :: _) into Hj.
        apply elem_of_cons in Hj as [->|Hj]; [|done].
        apply lookup_delete_eq.
      * rename select (k' ∉ _ :: _) into Hj.
        apply lookup_delete_ne. intros ->. apply Hj. by left.
    + rewrite Hcan. simpl. by rewrite <- app_assoc.
Qed.

(** C5: teardown calls the cancel function of every session in the
    registry, once each, and leaves the registry empty. *)
Theorem teardown_cancels_all_and_empties st :
  (terminateConnection st).1 = Done tt
  ∧ subscriptionCancellers (terminateConnection st).2 = ∅
  ∧ cancelled (terminateConnection st).2
    = cancelled st ++ (map_to_list (subscriptionCancellers st)).*2
  ∧ (∀ id cancel,
       subscriptionCancellers st !! id = Some cancel ->
       cancel ∈ cancelled (terminateConnection st).2)
  ∧ tickerStopped (terminateConnection st).2 = true
  ∧ connClosed (terminateConnection st).2 = true.
Proof.
  unfold terminateConnection, bind, modify, Range. simpl.
  set (st1 := setStopped _ true _).
  destruct (RangeOver_cancelAndDelete
              (map_to_list (subscriptionCancellers st)) st1)
    as (st' & Hrun & Hreg & Hcan & Ht & Hc).
  { apply NoDup_fst_map_to_list. }
  { intros k c Hin. by apply elem_of_map_to_list in Hin. }
  change (subscriptionCancellers st1) with (subscriptionCancellers st) in *.
  rewrite Hrun. simpl. split; [done|]. split; [|split; [done|split]].
  - apply map_eq. intros k. rewrite Hreg, lookup_empty.
    case_decide as Hk; [done|].
    destruct (subscriptionCancellers st !! k) as [c|] eqn:Hl; [|done].
    exfalso. apply Hk. apply list_elem_of_fmap. exists (k, c).
    split; [done|]. by apply elem_of_map_to_list.
  - intros id cancel Hl. rewrite Hcan. apply elem_of_app. right.
    apply list_elem_of_fmap. exists (id, cancel).
    split; [done|]. by apply elem_of_map_to_list.
  - by rewrite Ht, Hc.
Qed.


Variable h : Handler Schema.
Variable C : Codec Value any.
Variable E : graphql.Collaborators Schema Value.

(** C4, as the code has it: registering a session stores its cancel
    function under the id, replacing the entry the id had, so the registry
    has one entry for the id; it calls no cancel function, and every
    session that was live under the id is still live. *)
Theorem register_overwrites_without_cancelling id st :
  (registerSession C id st).1
    = Done (Derived (ctx st) (nextHandle st), nextHandle st)
  ∧ subscriptionCancellers (registerSession C id st).2
    = <[Sprintf_v C id := nextHandle st]> (subscriptionCancellers st)
  ∧ cancelled (registerSession C id st).2 = cancelled st
  ∧ sessions (registerSession C id st).2
    = sessions st ++ [(Sprintf_v C id, nextHandle st)]
  ∧ liveSessions (Sprintf_v C id) st
    ⊆ liveSessions (Sprintf_v C id) (registerSession C id st).2.
Proof.
  unfold registerSession, bind, WithCancel, Store, modify, ret. simpl.
  repeat split.
  unfold liveSessions. simpl.
  rewrite filter_app, fmap_app, filter_app.
  intros c Hc. apply elem_of_app. by left.
Qed.

(** Writing frames does not start pipeline runs. *)
Lemma forRange_runs (ch : chan (graphql.Result Value))
    (m : graphql.Result Value -> GraphQLWSMessage any) st :
  runs (forRange ch (fun result => WriteJSON (m result)) st).2 = runs st.
Proof.
  revert st. induction ch as [|[v|] ch IH]; intros st; simpl; try done.
  unfold bind, WriteJSON, modify. simpl. by rewrite IH.
Qed.

(** Which entry point a subscribe or start frame runs. *)
Lemma handleStart_entry msg payload st :
  Unmarshal_payload C (Payload msg) = inl payload ->
  ∃ params,
    graphql.Params_RequestString params = Query payload
    ∧ runs (handleStart h C E msg st).2
      = runs st ++ [(if hasSubscriptionPrefix (Query payload)
                     then CalledDoAsync else CalledDo, params)].
Proof.
  intros Hpayload. unfold handleStart. rewrite Hpayload.
  unfold registerSession, bind, WithCancel, Store, modify, ret. simpl.
  eexists. split; cycle 1.
  - destruct (hasSubscriptionPrefix (Query payload)).
    + unfold runDoAsync, bind, modify. simpl.
      destruct (graphql.outcome (graphql.DoAsync E _)) as [ch|msg'];
        simpl; [|reflexivity].
      rewrite forRange_runs. reflexivity.
    + unfold runDo, bind, modify. simpl.
      match goal with
      | |- context [graphql.Do E ?p] =>
          destruct (graphql_facts.Do_returns E p) as (r & _ & ->)
      end.
      unfold formatErrors, ret, panic, WriteJSON, call, modify. simpl.
      destruct (formatErrorFn h); [case_bool_decide|]; reflexivity.
  - reflexivity.
Qed.

(** What the branch for queries and mutations leaves behind: one frame
    with the id of the request, the cancel function called, and the
    entry still in the registry. *)
Lemma handleStart_single msg payload st :
  Unmarshal_payload C (Payload msg) = inl payload ->
  hasSubscriptionPrefix (Query payload) = false ->
  ∃ result,
    (handleStart h C E msg st).1 = Done tt
    ∧ written (handleStart h C E msg st).2
      = written st ++
        [WroteJSON {| ID := ID msg;
                      Type_ := default "" (dataMessageNames !! Type_ msg);
                      Payload := Marshal_result C (Some result) |}]
    ∧ cancelled (handleStart h C E msg st).2
      = cancelled st ++ [nextHandle st]
    ∧ subscriptionCancellers (handleStart h C E msg st).2
      = <[Sprintf_v C (ID msg) := nextHandle st]> (subscriptionCancellers st).
Proof.
  intros Hpayload Hprefix. unfold handleStart. rewrite Hpayload, Hprefix.
  unfold registerSession, bind, WithCancel, Store, modify, ret. simpl.
  unfold runDo, bind, modify. simpl.
  match goal with
  | |- context [graphql.Do E ?p] =>
      destruct (graphql_facts.Do_returns E p) as (r & _ & ->)
  end.
  unfold formatErrors, ret, panic, WriteJSON, call, modify. simpl.
  destruct (formatErrorFn h); [case_bool_decide|]; simpl;
    eexists; repeat split.
Qed.

(** The prefix test accepts leading spaces before the keyword. *)
Lemma hasSubscriptionPrefix_spaces (n : nat) (rest : string) :
  hasSubscriptionPrefix
    (Nat.iter n (String " ") ("subscription" +:+ rest)) = true.
Proof.
  unfold hasSubscriptionPrefix. induction n as [|n IH]; simpl; [|exact IH].
  reflexivity.
Qed.

End Facts.

(** C6, as the code has it: the ping period is half the pong wait, 30
    seconds for 60 seconds, which is less than the pong wait. *)
Theorem pingPeriod_is_half_pongWait :
  pingPeriod = (pongWait `quot` 2)%Z
  ∧ pongWait = (60 * time.Second)%Z
  ∧ pingPeriod = (30 * time.Second)%Z
  ∧ (pingPeriod < pongWait)%Z.
Proof. repeat split. Qed.

End handler_facts.

Module handler_examples.
Import context gqlerrors handler handler_spec tactics handler_facts demo.

(** C4 fails as stated: after a second registration under the id 1, two
    sessions under that id are live. *)
Lemma duplicate_id_leaves_two_live_sessions :
  ¬ OneLiveSessionPerId codec
      (registerSession codec (Some "1") conn0).2 (Some "1").
Proof. unfold OneLiveSessionPerId. vm_compute. discriminate. Qed.

(** The statement of C5 on a connection with two sessions. *)
Lemma teardown_of_two_sessions :
  subscriptionCancellers
    (registerSession codec (Some "2")
       (registerSession codec (Some "1") conn0).2).2 !! "1" = Some 0
  ∧ 0 ∈ cancelled
          (terminateConnection
             (registerSession codec (Some "2")
                (registerSession codec (Some "1") conn0).2).2).2
  ∧ subscriptionCancellers
      (terminateConnection
         (registerSession codec (Some "2")
            (registerSession codec (Some "1") conn0).2).2).2 = ∅.
Proof.
  pose proof (teardown_cancels_all_and_empties
                (registerSession codec (Some "2")
                   (registerSession codec (Some "1") conn0).2).2)
    as (_ & Hempty & _ & Hall & _).
  assert (H1 : subscriptionCancellers
    (registerSession codec (Some "2")
       (registerSession codec (Some "1") conn0).2).2 !! "1" = Some 0).
  { vm_compute. reflexivity. }
  exact (conj H1 (conj (Hall "1" 0 H1) Hempty)).
Defined.

(** C6 fails as stated: the ping period is not below half the pong
    wait. *)
Lemma pingPeriod_not_below_half_pongWait : ¬ ProbeBelowHalfTimeout.
Proof. unfold ProbeBelowHalfTimeout. vm_compute. intros H. discriminate H. Qed.

(** C8 on a subscription whose text starts with a newline: the document
    is a subscription document, the prefix test rejects it, and the
    handler runs it through [Do]. *)
Theorem newline_subscription_runs_Do :
  isSubscriptionDocument E0 (request counterSubscriptionNL) = true
  ∧ hasSubscriptionPrefix counterSubscriptionNL = false
  ∧ (handleMessage theHandler codec E0
       (frameText "1" "subscribe" "\nsubscription { counter }") conn0).1
    = Done tt
  ∧ map fst (runs (handleMessage theHandler codec E0
                     (frameText "1" "subscribe" "\nsubscription { counter }")
                     conn0).2)
    = [CalledDo]
  ∧ map (fun r => graphql.Params_RequestString r.2)
        (runs (handleMessage theHandler codec E0
                 (frameText "1" "subscribe" "\nsubscription { counter }")
                 conn0).2)
    = [counterSubscriptionNL].
Proof. repeat split; vm_compute; reflexivity. Qed.

(** C9 on the query [{ hello }] sent in a start frame with id 1: one data
    frame with that id is written and the cancel function is called, and
    the entry for the id is still in the registry. *)
Theorem query_session_stays_registered :
  hasSubscriptionPrefix helloQuery = false
  ∧ (handleMessage theHandler codec E0
       (frameText "1" "start" helloQuery) conn0).1 = Done tt
  ∧ written (handleMessage theHandler codec E0
               (frameText "1" "start" helloQuery) conn0).2
    = [WroteJSON {| ID := Some "1"; Type_ := "data";
                    Payload := marshalResult (Some helloResult) |}]
  ∧ cancelled (handleMessage theHandler codec E0
                 (frameText "1" "start" helloQuery) conn0).2 = [0]
  ∧ subscriptionCancellers
      (handleMessage theHandler codec E0
         (frameText "1" "start" helloQuery) conn0).2 !! "1" = Some 0.
Proof. repeat split; vm_compute; reflexivity. Qed.

End handler_examples.

(** * More on the pipeline *)
Module graphql_more.
Import gqlerrors graphql spec tactics tactics_more.

Section Facts.
Context {Schema Value : Type}.
Variable E : Collaborators Schema Value.
Implicit Types (p : Params Schema Value) (AST : ast.Document).

(** X1: a strategy is started only for a validated request. If a run of
    [do] starts [Execute] or calls [ExecuteSubscription], the text was
    parsed, the document was valid, and no hook returned an error. *)
Theorem strategy_only_after_validation p skip :
  EvGoExecute ∈ trace (do E p skip)
  ∨ EvExecuteSubscription ∈ trace (do E p skip) ->
  validated (trace (do E p skip))
  ∧ ∃ AST, Parse E (parseParams E p) = inl AST.
Proof.
  run; intros [Hin|Hin]; inv_in Hin; lens; rw_goal;
    (split; [split; [|eexists]; find_in|eauto]).
Qed.

(** X2: a run that ends in [wrapErr] returns one Result with nil data and
    starts no strategy. *)
Theorem failed_run_has_no_data p skip :
  EvGoWrapErr ∈ trace (do E p skip) ->
  (∃ errs, outcome (do E p skip) =
             Returned [Send {| Result_Data := None; Result_Errors := errs |}])
  ∧ (EvGoExecute ∉ trace (do E p skip))
  ∧ (EvExecuteSubscription ∉ trace (do E p skip)).
Proof.
  run; intros Hin; inv_in Hin;
    (split; [eauto|split; not_in]).
Qed.

(** X3: the parser is called only when the init hooks and the parse-start
    hooks returned no error; the validator is called only when the text
    was parsed and the parse-finish hooks and the validation-start hooks
    returned no error. *)
Theorem stages_run_in_order p skip :
  (∀ err, EvParse err ∈ trace (do E p skip) ->
     EvInits [] ∈ trace (do E p skip)
     ∧ EvParseDidStart [] ∈ trace (do E p skip))
  ∧ (∀ isValid, EvValidateDocument isValid ∈ trace (do E p skip) ->
       EvParse None ∈ trace (do E p skip)
       ∧ EvParseFinish None [] ∈ trace (do E p skip)
       ∧ EvValidationDidStart [] ∈ trace (do E p skip)).
Proof.
  run; (split; [intros err Hin|intros isValid Hin]); inv_in Hin; lens;
    rw_goal; repeat split; find_in.
Qed.

(** X5: unless it calls [ExecuteSubscription] or panics, [DoAsync] makes
    the calls of [do] with [skipSubscriptions] set and returns the same
    channel. *)
Theorem DoAsync_agrees_with_Do_channel p :
  EvExecuteSubscription ∉ trace (DoAsync E p) ->
  (∀ msg, outcome (DoAsync E p) ≠ Panicked msg) ->
  DoAsync E p = do E p true.
Proof.
  run; intros Hnot Hpanic; try reflexivity;
    try (exfalso; apply Hnot; find_in);
    try (exfalso; eapply Hpanic; reflexivity).
Qed.

(** A validated run, with the document its strategy is given. *)
Lemma do_validated_AST p skip :
  validated (trace (do E p skip)) ->
  ∃ AST params pre,
    Parse E (parseParams E p) = inl AST
    ∧ ExecuteParams_AST params = AST
    ∧ (EvGoExecute ∉ pre) ∧ (EvExecuteSubscription ∉ pre)
    ∧ (EvGoWrapErr ∉ pre)
    ∧ ∀ skip', do E p skip' =
        (pre ++ trace (dispatch E params AST skip'),
         outcome (dispatch E params AST skip')).
Proof.
  intros [Hv [verrs Hf]]. revert Hv Hf.
  unfold do, wrapErr, bind, emit, ret, trace, outcome. simpl.
  repeat (case_match; simplify_eq/=); intros Hv Hf;
    inv_in Hv; inv_in Hf; tidy;
    try match goal with
        | Hd : dispatch _ _ _ _ = (?l, _), Hin : _ ∈ ?l |- _ =>
            destruct (graphql_facts.dispatch_trace _ _ _ _ _ _ _ Hd Hin);
            discriminate
        end.
  match goal with
  | |- context [dispatch E ?pa ?ast _] => exists ast, pa
  end.
  eexists. split; [assumption|]. split; [reflexivity|].
  repeat (split; [shelve|]).
  intros skip'. destruct (dispatch _ _ _ skip') as [td od]. simpl.
  f_equal.
  match goal with
  | |- ?e1 :: ?e2 :: ?e3 :: ?e4 :: ?e5 :: ?e6 :: ?e7 :: ?t = _ =>
      exact (eq_refl ([e1; e2; e3; e4; e5; e6; e7] ++ t))
  end.
  Unshelve. all: not_in.
Qed.

(** X4: [Do] ignores subscriptions. It never calls [ExecuteSubscription],
    and for every validated request, a subscription too, it returns the
    Result of [Execute] on the parsed document. *)
Theorem Do_ignores_subscriptions p :
  (EvExecuteSubscription ∉ trace (Do E p))
  ∧ (validated (trace (do E p true)) ->
     ∃ AST params,
       Parse E (parseParams E p) = inl AST
       ∧ ExecuteParams_AST params = AST
       ∧ outcome (Do E p) = Returned (DoReturns (Some (Execute E params)))).
Proof.
  split.
  - run; not_in.
  - intros Hval.
    destruct (do_validated_AST p true Hval)
      as (AST & params & pre & HP & HA & _ & _ & _ & Hdo).
    exists AST, params. split; [done|]. split; [done|].
    unfold Do, bind, outcome. rewrite Hdo.
    rewrite (graphql_facts.dispatch_single E params AST true) by auto.
    reflexivity.
Qed.

(** X6: for a validated request whose first definition is a subscription,
    [DoAsync] returns the channel of [ExecuteSubscription] itself; it
    starts no goroutine for [Execute] and does not go through
    [wrapErr]. *)
Theorem DoAsync_returns_the_subscription_stream p AST d :
  validated (trace (DoAsync E p)) ->
  Parse E (parseParams E p) = inl AST ->
  ast.Definitions AST !! 0%nat = Some (ast.N_OperationDefinition d) ->
  ast.Operation d = "subscription" ->
  ∃ params,
    ExecuteParams_AST params = AST
    ∧ outcome (DoAsync E p) = Returned (ExecuteSubscription E params)
    ∧ (EvGoExecute ∉ trace (DoAsync E p))
    ∧ (EvGoWrapErr ∉ trace (DoAsync E p)).
Proof.
  intros Hval HP Hd Hop.
  destruct (do_validated_AST p false Hval)
    as (AST' & params & pre & HP' & HA & H1 & H2 & H3 & Hdo).
  rewrite HP in HP'. simplify_eq.
  exists params. split; [done|].
  unfold DoAsync. rewrite Hdo.
  rewrite (graphql_facts.dispatch_streaming E params _ false)
    by (split; [done|]; eauto).
  unfold outcome, trace. simpl. split; [done|].
  split; intros Hin; apply elem_of_app in Hin as [Hin|Hin];
    try done; inv_in Hin.
Qed.

(** A channel of [do] other than the stream of the executor carries one
    Result and is not closed. *)
Lemma do_single_unless_streaming p skip ch :
  outcome (do E p skip) = Returned ch ->
  EvExecuteSubscription ∉ trace (do E p skip) ->
  ∃ r, ch = [Send r].
Proof.
  run; intros Hout Hnot; simplify_eq; eauto;
    exfalso; apply Hnot; find_in.
Qed.

End Facts.
End graphql_more.

(** * More on the websocket handler *)
Module handler_more.
Import context gqlerrors handler start_frame tactics tactics_more.

Lemma delivered_Send {T : Type} (v : T) (ch : chan T) :
  delivered (Send v :: ch) = v :: delivered ch.
Proof. unfold delivered. simpl. by destruct (range ch). Qed.

Lemma closes_Send {T : Type} (v : T) (ch : chan T) :
  closes (Send v :: ch) = closes ch.
Proof. unfold closes. simpl. by destruct (range ch). Qed.

Section Facts.
Context {Schema Value any : Type}.
Variable h : Handler Schema.
Variable C : Codec Value any.
Variable E : graphql.Collaborators Schema Value.
Implicit Types (st : Conn Schema Value any) (msg : GraphQLWSMessage any).

(** The loop that writes a frame for every Result of a channel. *)
Lemma forRange_WriteJSON (ch : chan (graphql.Result Value))
    (frame : graphql.Result Value -> GraphQLWSMessage any) st :
  forRange ch (fun result => WriteJSON (frame result)) st =
    (if closes ch then Done tt else Blocked,
     setWritten (written st ++ map (fun r => WroteJSON (frame r)) (delivered ch))
       st).
Proof.
  revert st. induction ch as [|[v|] ch IH]; intros st.
  - destruct st. unfold setWritten. simpl. by rewrite app_nil_r.
  - simpl. unfold bind, WriteJSON, modify. simpl. rewrite IH.
    rewrite delivered_Send, closes_Send. destruct st. unfold setWritten.
    simpl. by rewrite <- app_assoc.
  - destruct st. unfold setWritten. simpl. by rewrite app_nil_r.
Qed.

(** X7: a stop frame for an id without entry in the registry changes
    nothing: no frame is written, nothing is cancelled, the goroutine
    ends. *)
Theorem stop_for_unknown_id_is_ignored message msg st :
  Unmarshal_message C message = inl msg ->
  Type_ msg = "stop" ->
  subscriptionCancellers st !! Sprintf_v C (ID msg) = None ->
  handleMessage h C E message st = (Done tt, st).
Proof.
  intros Hmsg Htype Hnone. unfold handleMessage. rewrite Hmsg, Htype. simpl.
  unfold handleStop, bind, Load. by rewrite Hnone.
Qed.

(** X8: a stop frame for a registered id deletes the entry, calls its
    cancel function once and writes no frame; the same stop frame again
    changes nothing. *)
Theorem stop_cancels_and_forgets message msg st cancel :
  Unmarshal_message C message = inl msg ->
  Type_ msg = "stop" ->
  subscriptionCancellers st !! Sprintf_v C (ID msg) = Some cancel ->
  (handleMessage h C E message st).1 = Done tt
  ∧ subscriptionCancellers (handleMessage h C E message st).2
    = delete (Sprintf_v C (ID msg)) (subscriptionCancellers st)
  ∧ cancelled (handleMessage h C E message st).2 = cancelled st ++ [cancel]
  ∧ written (handleMessage h C E message st).2 = written st
  ∧ handleMessage h C E message (handleMessage h C E message st).2
    = (Done tt, (handleMessage h C E message st).2).
Proof.
  intros Hmsg Htype Hsome. unfold handleMessage. rewrite Hmsg, Htype. simpl.
  unfold handleStop, bind, Load, Delete, call, modify. rewrite Hsome. simpl.
  by rewrite lookup_delete_eq.
Qed.

(** X9: registering a session under an id that has no entry and then
    handling a stop frame for the id leaves the registry as it was, with
    the cancel function of the new session called. *)
Theorem register_then_stop_restores_registry msg st :
  subscriptionCancellers st !! Sprintf_v C (ID msg) = None ->
  (handleStop C msg (registerSession C (ID msg) st).2).1 = Done tt
  ∧ subscriptionCancellers (handleStop C msg (registerSession C (ID msg) st).2).2
    = subscriptionCancellers st
  ∧ cancelled (handleStop C msg (registerSession C (ID msg) st).2).2
    = cancelled st ++ [nextHandle st].
Proof.
  intros Hnone.
  unfold handleStop, registerSession, bind, WithCancel, Store, Load, Delete,
    call, modify, ret. simpl.
  rewrite lookup_insert_eq. simpl. repeat split.
  rewrite delete_insert_eq. by apply delete_id.
Qed.

(** The teardown ends with an empty registry, the ticker stopped and the
    socket closed. *)
Lemma terminateConnection_result st :
  ∃ st', terminateConnection st = (Done tt, st')
         ∧ subscriptionCancellers st' = ∅
         ∧ tickerStopped st' = true
         ∧ connClosed st' = true.
Proof.
  unfold terminateConnection, bind, modify, Range. simpl.
  set (st1 := setStopped _ true _).
  destruct (handler_facts.RangeOver_cancelAndDelete
              (map_to_list (subscriptionCancellers st)) st1)
    as (st' & Hrun & Hreg & _ & Ht & Hc).
  { apply NoDup_fst_map_to_list. }
  { intros k c Hin. by apply elem_of_map_to_list in Hin. }
  change (subscriptionCancellers st1) with (subscriptionCancellers st) in *.
  exists st'. split; [exact Hrun|]. split; [|by rewrite Ht, Hc].
  apply map_eq. intros k. rewrite Hreg, lookup_empty.
  case_decide as Hk; [done|].
  destruct (subscriptionCancellers st !! k) as [c|] eqn:Hl; [|done].
  exfalso. apply Hk. apply list_elem_of_fmap. exists (k, c).
  split; [done|]. by apply elem_of_map_to_list.
Qed.

(** X10: the teardown runs from both the reader and the writer; the second
    run changes nothing and cancels nothing again. *)
Theorem terminateConnection_twice st :
  terminateConnection (terminateConnection st).2
  = (Done tt, (terminateConnection st).2).
Proof.
  destruct (terminateConnection_result st) as (st' & -> & Hreg & Ht & Hc).
  simpl. destruct st'. simpl in *. subst.
  unfold terminateConnection, bind, modify, Range, setStopped. simpl.
  rewrite map_to_list_empty. reflexivity.
Qed.

(** X11: a frame that does not decode, or a subscribe or start frame whose
    payload does not decode, is answered by one error frame with the text
    of the decoder's error; nothing else of the connection changes: no
    session, no cancel, no pipeline run. *)
Theorem undecodable_frame_gets_one_error_frame message err st :
  Unmarshal_message C message = inr err
  ∨ (∃ msg, Unmarshal_message C message = inl msg
            ∧ (Type_ msg = "subscribe" ∨ Type_ msg = "start")
            ∧ Unmarshal_payload C (Payload msg) = inr err) ->
  handleMessage h C E message st =
    (Done tt,
     setWritten (written st ++
                 [WroteJSON {| ID := None; Type_ := "error";
                               Payload := Marshal_string C err |}]) st).
Proof.
  intros [Hmsg|(msg & Hmsg & Htype & Hpayload)];
    unfold handleMessage; rewrite Hmsg; [reflexivity|].
  destruct Htype as [-> | ->]; simpl;
    unfold handleStart; rewrite Hpayload; reflexivity.
Qed.

(** X12: a frame of any type other than connection_init, subscribe, start
    and stop is ignored: no frame is written, not even an error frame. *)
Theorem unknown_type_is_ignored message msg st :
  Unmarshal_message C message = inl msg ->
  Type_ msg ∉ ["connection_init"; "subscribe"; "start"; "stop"] ->
  handleMessage h C E message st = (Done tt, st).
Proof.
  intros Hmsg Hnot. unfold handleMessage. rewrite Hmsg.
  assert (Hneq : ∀ t, t ∈ ["connection_init"; "subscribe"; "start"; "stop"] ->
                      String.eqb (Type_ msg) t = false).
  { intros t Hin. apply String.eqb_neq. intros Heq. apply Hnot.
    by rewrite Heq. }
  rewrite !Hneq by find_in. reflexivity.
Qed.

(** X13: a connection_init frame is answered by connection_ack and touches
    no session; the context of the connection becomes what
    [ModifyContextOnHeaders] makes of the headers in the payload, and
    stays as it was when that function is nil or the headers do not
    decode. Sessions registered afterwards derive from that context. *)
Theorem connection_init_acks_and_sets_context message msg st :
  Unmarshal_message C message = inl msg ->
  Type_ msg = "connection_init" ->
  (handleMessage h C E message st).1 = Done tt
  ∧ written (handleMessage h C E message st).2
    = written st ++ [WroteJSON {| ID := None; Type_ := "connection_ack";
                                  Payload := EmptyString |}]
  ∧ subscriptionCancellers (handleMessage h C E message st).2
    = subscriptionCancellers st
  ∧ cancelled (handleMessage h C E message st).2 = cancelled st
  ∧ ctx (handleMessage h C E message st).2
    = match ModifyContextOnHeaders h, Unmarshal_headers C (Payload msg) with
      | Some modifyContext, inl headers => modifyContext (ctx st) headers
      | _, _ => ctx st
      end
  ∧ ∀ id, (registerSession C id (handleMessage h C E message st).2).1
          = Done (Derived (ctx (handleMessage h C E message st).2)
                    (nextHandle st), nextHandle st).
Proof.
  intros Hmsg Htype. unfold handleMessage. rewrite Hmsg, Htype. simpl.
  unfold handleInit, bind, WriteJSON, modify, ret.
  destruct (ModifyContextOnHeaders h) as [f|];
    [destruct (Unmarshal_headers C (Payload msg)) as [headers|e]|];
    simpl; repeat split.
Qed.

End Facts.
End handler_more.

Module streaming_more.
Import context gqlerrors handler start_frame tactics tactics_more handler_more.

Section Facts.
Context {Schema Value any : Type}.
Variable h : Handler Schema.
Variable C : Codec Value any.
Variable E : graphql.Collaborators Schema Value.
Implicit Types (st : Conn Schema Value any) (msg : GraphQLWSMessage any).

(** The branch for subscriptions: a frame for every Result of the
    channel, in order; the loop ends when the channel is closed. *)
Lemma handleStart_streaming msg payload st ch :
  Unmarshal_payload C (Payload msg) = inl payload ->
  hasSubscriptionPrefix (Query payload) = true ->
  graphql.outcome
    (graphql.DoAsync E
       (startParams h payload (Derived (ctx st) (nextHandle st))))
    = graphql.Returned ch ->
  (handleStart h C E msg st).1 = (if closes ch then Done tt else Blocked)
  ∧ written (handleStart h C E msg st).2
    = written st ++
      map (fun r => WroteJSON
             (dataFrame C msg (default "" (dataMessageNames !! Type_ msg)) r))
          (delivered ch)
  ∧ cancelled (handleStart h C E msg st).2 = cancelled st
  ∧ subscriptionCancellers (handleStart h C E msg st).2
    = <[Sprintf_v C (ID msg) := nextHandle st]> (subscriptionCancellers st).
Proof.
  intros Hpayload Hprefix Hch. unfold handleStart.
  rewrite Hpayload, Hprefix.
  unfold registerSession, handler.bind, WithCancel, Store, modify,
    handler.ret. simpl.
  unfold runDoAsync, handler.bind, modify. simpl.
  unfold startParams in Hch. rewrite Hch. unfold handler.ret, dataFrame.
  rewrite forRange_WriteJSON. repeat split.
Qed.

(** X14: in the branch for subscriptions the handler writes one frame for
    every Result of the channel, in the order of the channel, with the id
    of the request and the type that mirrors the type of the request; it
    ends exactly when the channel is closed and calls no cancel
    function. *)
Theorem subscription_frames_follow_the_stream msg payload st ch :
  Unmarshal_payload C (Payload msg) = inl payload ->
  hasSubscriptionPrefix (Query payload) = true ->
  graphql.outcome
    (graphql.DoAsync E
       (startParams h payload (Derived (ctx st) (nextHandle st))))
    = graphql.Returned ch ->
  ((handleStart h C E msg st).1 = Done tt <-> closes ch = true)
  ∧ ((handleStart h C E msg st).1 = Blocked <-> closes ch = false)
  ∧ written (handleStart h C E msg st).2
    = written st ++
      map (fun r => WroteJSON
             (dataFrame C msg (default "" (dataMessageNames !! Type_ msg)) r))
          (delivered ch)
  ∧ cancelled (handleStart h C E msg st).2 = cancelled st.
Proof.
  intros Hpayload Hprefix Hch.
  destruct (handleStart_streaming msg payload st ch Hpayload Hprefix Hch)
    as (Hout & Hw & Hc & _).
  rewrite Hout. destruct (closes ch); repeat split; done.
Qed.

(** X15: when the text has the subscription prefix and the run does not
    call [ExecuteSubscription] (the request failed, or its first operation
    is no subscription), the handler writes the one Result and then waits
    forever on the channel: the cancel function is not called and the
    entry stays in the registry. *)
Theorem failed_subscription_request_blocks msg payload st ch :
  Unmarshal_payload C (Payload msg) = inl payload ->
  hasSubscriptionPrefix (Query payload) = true ->
  graphql.outcome
    (graphql.DoAsync E
       (startParams h payload (Derived (ctx st) (nextHandle st))))
    = graphql.Returned ch ->
  graphql.EvExecuteSubscription
    ∉ graphql.trace
        (graphql.DoAsync E
           (startParams h payload (Derived (ctx st) (nextHandle st)))) ->
  ∃ r,
    ch = [Send r]
    ∧ (handleStart h C E msg st).1 = Blocked
    ∧ written (handleStart h C E msg st).2
      = written st ++
        [WroteJSON
           (dataFrame C msg (default "" (dataMessageNames !! Type_ msg)) r)]
    ∧ cancelled (handleStart h C E msg st).2 = cancelled st
    ∧ subscriptionCancellers (handleStart h C E msg st).2
        !! Sprintf_v C (ID msg) = Some (nextHandle st).
Proof.
  intros Hpayload Hprefix Hch Hnot.
  destruct (graphql_more.do_single_unless_streaming E _ _ _ Hch Hnot) as [r ->].
  destruct (handleStart_streaming msg payload st _ Hpayload Hprefix Hch)
    as (Hout & Hw & Hc & Hreg).
  exists r. split; [done|]. split; [done|]. split; [done|]. split; [done|].
  rewrite Hreg. apply lookup_insert_eq.
Qed.



End Facts.

(** The prefix test: spaces, then the keyword. *)
Lemma TrimLeft_spaces (s : string) :
  ∃ n, s = Nat.iter n (String " ") (strings.TrimLeft s " ")
       ∧ (∀ rest, strings.TrimLeft s " " ≠ String " " rest).
Proof.
  induction s as [|c s IH]; simpl.
  - exists 0. split; [done|]. intros rest. discriminate.
  - destruct (Ascii.eqb c " ") eqn:Hc.
    + apply Ascii.eqb_eq in Hc as ->. destruct IH as (n & Hs & Hno).
      exists (S n). simpl. split; [by rewrite <- Hs|done].
    + exists 0. split; [done|]. intros rest Heq. simplify_eq.
Qed.

Lemma HasPrefix_iff (s prefix : string) :
  strings.HasPrefix s prefix = true <-> ∃ rest, s = prefix +:+ rest.
Proof.
  revert s. induction prefix as [|p prefix IH]; intros s; simpl.
  - split; [intros _; by exists s|done].
  - destruct s as [|c s]; [split; [done|intros [rest Heq]; discriminate]|].
    destruct (Ascii.eqb c p) eqn:Hc.
    + apply Ascii.eqb_eq in Hc as ->. rewrite IH.
      split; intros [rest Heq]; exists rest.
      * by rewrite Heq.
      * by injection Heq.
    + split; [done|]. intros [rest Heq]. simpl in Heq.
      injection Heq as -> _. by rewrite Ascii.eqb_refl in Hc.
Qed.

(** X16: the handler takes the subscription branch exactly for the texts
    that are some spaces followed by the word subscription, whatever comes
    after it. *)
Theorem hasSubscriptionPrefix_iff (query : string) :
  hasSubscriptionPrefix query = true
  <-> ∃ n rest,
        query = Nat.iter n (String " ") ("subscription" +:+ rest).
Proof.
  unfold hasSubscriptionPrefix. rewrite HasPrefix_iff. split.
  - intros [rest Hrest]. destruct (TrimLeft_spaces query) as (n & Hq & _).
    exists n, rest. by rewrite <- Hrest.
  - intros (n & rest & ->). exists rest.
    induction n as [|n IH]; simpl; [reflexivity|exact IH].
Qed.

End streaming_more.

(** * Configuration and routing *)
Module http_facts.
Import context handler_http.

Section Facts.
Context {Schema RootObjectFn ResultCallbackFn : Type}.
Implicit Types (cfg : Config Schema RootObjectFn ResultCallbackFn).

(** X18: [New] panics for a nil config and for a config without schema,
    and returns a handler for every config with a schema. *)
Theorem New_requires_schema :
  New (Schema:=Schema) (RootObjectFn:=RootObjectFn)
      (ResultCallbackFn:=ResultCallbackFn) None
    = handler.Panic "undefined GraphQL schema"
  ∧ ∀ cfg,
      (Config_Schema cfg = None
       -> New (Some cfg) = handler.Panic "undefined GraphQL schema")
      ∧ ((∃ h, New (Some cfg) = handler.Done h) <-> is_Some (Config_Schema cfg)).
Proof.
  split; [reflexivity|]. intros cfg. unfold New.
  destruct (Config_Schema cfg) as [schema|]; split; try done.
  - split; [by eauto|]. intros _. eauto.
  - split; [intros [h Hh]; discriminate|]. intros [? ?]. discriminate.
Qed.

(** X19: the handler [New] makes keeps the schema, and [ServeHTTP] hands a
    request to the websocket handler, with the background context,
    exactly when the Upgrade header is websocket and the config enables
    websockets; every other request goes to [ContextHandler] with the
    context of the request. *)
Theorem New_then_ServeHTTP cfg schema :
  Config_Schema cfg = Some schema ->
  ∃ h,
    New (Some cfg) = handler.Done h
    ∧ Schema_ h = Some schema
    ∧ ∀ r,
        (ServeHTTP h r = ServedByContextWebsocketHandler Background
         <-> Header_Get r "Upgrade" = "websocket" ∧ WebSocket cfg = true)
        ∧ (ServeHTTP h r = ServedByContextHandler (Request_Context r)
           <-> ¬ (Header_Get r "Upgrade" = "websocket" ∧ WebSocket cfg = true)).
Proof.
  intros Hschema. unfold New. rewrite Hschema. eexists.
  split; [reflexivity|]. split; [reflexivity|]. intros r.
  unfold ServeHTTP. simpl.
  destruct (String.eqb (Header_Get r "Upgrade") "websocket") eqn:Hup.
  - apply String.eqb_eq in Hup. destruct (WebSocket cfg); simpl.
    + split; [done|]. split; [discriminate|]. intros Hn. by destruct Hn.
    + split; [split; [discriminate|intros [_ ?]; discriminate]|].
      split; [intros _ [_ ?]; discriminate|done].
  - apply String.eqb_neq in Hup. simpl.
    split; [split; [discriminate|intros [? _]; done]|].
    split; [intros _ [? _]; done|done].
Qed.

End Facts.
End http_facts.

(** * The statements above on the example *)
Module more_examples.
Import context gqlerrors handler start_frame tactics tactics_more.
Import demo demo_more.

(** The statement of X1 on the query [{ hello }]. *)
Lemma hello_runs_after_validation :
  graphql.EvGoExecute ∈ graphql.trace (graphql.do E0 (request helloQuery) false)
  ∧ spec.validated (graphql.trace (graphql.do E0 (request helloQuery) false)).
Proof.
  assert (Hin : graphql.EvGoExecute
                ∈ graphql.trace (graphql.do E0 (request helloQuery) false)).
  { eval_trace. find_in. }
  split; [exact Hin|].
  exact (proj1 (graphql_more.strategy_only_after_validation
                  E0 (request helloQuery) false (or_introl Hin))).
Defined.

(** The statement of X2 on a mutation that does not validate. *)
Lemma rejected_mutation_has_no_data :
  graphql.EvGoWrapErr
    ∈ graphql.trace (graphql.do E0 (request nopeMutation) false)
  ∧ ∃ errs,
      graphql.outcome (graphql.do E0 (request nopeMutation) false)
      = graphql.Returned
          [Send {| graphql.Result_Data := None;
                   graphql.Result_Errors := errs |}].
Proof.
  assert (Hin : graphql.EvGoWrapErr
                ∈ graphql.trace (graphql.do E0 (request nopeMutation) false)).
  { eval_trace. find_in. }
  split; [exact Hin|].
  exact (proj1 (graphql_more.failed_run_has_no_data
                  E0 (request nopeMutation) false Hin)).
Defined.

(** The statement of X4 on the subscription to the counter. *)
Lemma Do_executes_the_counter_subscription :
  spec.validated
    (graphql.trace (graphql.do E0 (request counterSubscription) true))
  ∧ ∃ AST params,
      graphql.Parse E0 (graphql.parseParams E0 (request counterSubscription))
        = inl AST
      ∧ graphql.ExecuteParams_AST params = AST
      ∧ graphql.outcome (graphql.Do E0 (request counterSubscription))
        = graphql.Returned
            (graphql.DoReturns (Some (graphql.Execute E0 params))).
Proof.
  assert (Hval : spec.validated
            (graphql.trace (graphql.do E0 (request counterSubscription) true))).
  { split; [|exists []]; eval_trace; find_in. }
  split; [exact Hval|].
  exact (proj2 (graphql_more.Do_ignores_subscriptions
                  E0 (request counterSubscription)) Hval).
Defined.

(** The statement of X5 on the query [{ hello }]. *)
Lemma hello_same_channel_both_ways :
  graphql.DoAsync E0 (request helloQuery)
  = graphql.do E0 (request helloQuery) true.
Proof.
  apply (graphql_more.DoAsync_agrees_with_Do_channel E0 (request helloQuery)).
  - eval_trace. intros Hin. inv_in Hin.
  - intros m Hm. vm_compute in Hm. discriminate Hm.
Defined.

(** The statement of X6 on the subscription to the counter. *)
Lemma counter_subscription_streams :
  ∃ params,
    graphql.ExecuteParams_AST params = counterDoc
    ∧ graphql.outcome (graphql.DoAsync E0 (request counterSubscription))
      = graphql.Returned (graphql.ExecuteSubscription E0 params)
    ∧ (graphql.EvGoExecute
         ∉ graphql.trace (graphql.DoAsync E0 (request counterSubscription)))
    ∧ (graphql.EvGoWrapErr
         ∉ graphql.trace (graphql.DoAsync E0 (request counterSubscription))).
Proof.
  apply (graphql_more.DoAsync_returns_the_subscription_stream
           E0 (request counterSubscription) counterDoc
           {| ast.Operation := "subscription" |}).
  - split; [|exists []]; eval_trace; find_in.
  - reflexivity.
  - reflexivity.
  - reflexivity.
Defined.

(** The statement of X3 on the query [{ hello }]. *)
Lemma hello_stages_in_order :
  graphql.EvValidateDocument true
    ∈ graphql.trace (graphql.do E0 (request helloQuery) true)
  ∧ graphql.EvParse None
      ∈ graphql.trace (graphql.do E0 (request helloQuery) true).
Proof.
  assert (Hin : graphql.EvValidateDocument true
                ∈ graphql.trace (graphql.do E0 (request helloQuery) true)).
  { eval_trace. find_in. }
  split; [exact Hin|].
  exact (proj1 (proj2 (graphql_more.stages_run_in_order
                         E0 (request helloQuery) true) true Hin)).
Defined.

(** The statement of X7 on a connection without sessions. *)
Lemma stop_on_fresh_connection :
  handleMessage theHandler codec2 E0 (frameText "1" "stop" helloQuery) conn0
  = (Done tt, conn0).
Proof.
  apply (handler_more.stop_for_unknown_id_is_ignored theHandler codec2 E0
           (frameText "1" "stop" helloQuery) (msg "1" "stop" helloQuery) conn0).
  - vm_compute. reflexivity.
  - reflexivity.
  - reflexivity.
Defined.

(** The statement of X8 on a connection with a session under the id 1. *)
Lemma stop_of_session_1 :
  cancelled
    (handleMessage theHandler codec2 E0 (frameText "1" "stop" helloQuery)
       conn1).2 = cancelled conn1 ++ [0].
Proof.
  apply (handler_more.stop_cancels_and_forgets theHandler codec2 E0
           (frameText "1" "stop" helloQuery) (msg "1" "stop" helloQuery)
           conn1 0).
  - vm_compute. reflexivity.
  - reflexivity.
  - vm_compute. reflexivity.
Defined.

(** The statement of X9 on a connection without sessions. *)
Lemma register_then_stop_on_fresh_connection :
  subscriptionCancellers
    (handleStop codec2 (msg "1" "stop" helloQuery)
       (registerSession codec2 (Some "1") conn0).2).2
  = subscriptionCancellers conn0.
Proof.
  apply (handler_more.register_then_stop_restores_registry codec2
           (msg "1" "stop" helloQuery) conn0).
  reflexivity.
Defined.

(** The statement of X11 on a frame that is an opening brace. *)
Lemma garbage_gets_error_frame :
  handleMessage theHandler codec2 E0 "{" conn0
  = (Done tt,
     setWritten
       (written conn0 ++
        [WroteJSON {| ID := None; Type_ := "error";
                      Payload := Marshal_string codec2 "invalid character" |}])
       conn0).
Proof.
  apply (handler_more.undecodable_frame_gets_one_error_frame
           theHandler codec2 E0).
  left. vm_compute. reflexivity.
Defined.

(** The statement of X12 on a frame of type complete. *)
Lemma complete_frame_is_ignored :
  handleMessage theHandler codec2 E0 (frameText "1" "complete" helloQuery)
    conn1
  = (Done tt, conn1).
Proof.
  apply (handler_more.unknown_type_is_ignored theHandler codec2 E0
           (frameText "1" "complete" helloQuery)
           (msg "1" "complete" helloQuery) conn1).
  - vm_compute. reflexivity.
  - intros Hin. inv_in Hin.
Defined.

(** The statement of X13 on a frame that carries an authorization
    header. *)
Lemma init_with_headers :
  ctx (handleMessage headerHandler codec2 E0 initFrame conn0).2
  = match ModifyContextOnHeaders headerHandler,
          Unmarshal_headers codec2 headersText with
    | Some modifyContext, inl headers => modifyContext (ctx conn0) headers
    | _, _ => ctx conn0
    end.
Proof.
  apply (handler_more.connection_init_acks_and_sets_context
           headerHandler codec2 E0 initFrame
           {| ID := None; Type_ := "connection_init";
              Payload := headersText |} conn0).
  - vm_compute. reflexivity.
  - reflexivity.
Defined.

(** The statement of X14 on the subscription to the counter. *)
Lemma counter_frames :
  written (handleStart theHandler codec2 E0
             (msg "1" "subscribe" counterSubscription) conn0).2
  = written conn0 ++
    map (fun r => WroteJSON
           (dataFrame codec2 (msg "1" "subscribe" counterSubscription)
              (default "" (dataMessageNames
                             !! Type_ (msg "1" "subscribe" counterSubscription)))
              r))
        (delivered counterStream).
Proof.
  apply (streaming_more.subscription_frames_follow_the_stream
           theHandler codec2 E0 (msg "1" "subscribe" counterSubscription)
           (payloadOf counterSubscription) conn0 counterStream).
  - vm_compute. reflexivity.
  - reflexivity.
  - reflexivity.
Defined.

(** The statement of X15 on a subscription whose text does not parse. *)
Lemma broken_subscription_blocks :
  ∃ r,
    [Send {| graphql.Result_Data := None;
             graphql.Result_Errors :=
               [formatError
                  "Syntax Error GraphQL request (1:1) Unexpected Name"] |}]
      = [Send r]
    ∧ (handleStart theHandler codec2 E0
         (msg "1" "subscribe" brokenSubscription) conn0).1 = Blocked
    ∧ written (handleStart theHandler codec2 E0
                 (msg "1" "subscribe" brokenSubscription) conn0).2
      = written conn0 ++
        [WroteJSON
           (dataFrame codec2 (msg "1" "subscribe" brokenSubscription)
              (default "" (dataMessageNames
                             !! Type_ (msg "1" "subscribe" brokenSubscription)))
              r)]
    ∧ cancelled (handleStart theHandler codec2 E0
                   (msg "1" "subscribe" brokenSubscription) conn0).2
      = cancelled conn0
    ∧ subscriptionCancellers
        (handleStart theHandler codec2 E0
           (msg "1" "subscribe" brokenSubscription) conn0).2
        !! Sprintf_v codec2 (ID (msg "1" "subscribe" brokenSubscription))
      = Some (nextHandle conn0).
Proof.
  apply (streaming_more.failed_subscription_request_blocks
           theHandler codec2 E0 (msg "1" "subscribe" brokenSubscription)
           (payloadOf brokenSubscription) conn0).
  - vm_compute. reflexivity.
  - reflexivity.
  - reflexivity.
  - eval_trace. intros Hin. inv_in Hin.
Defined.


(** The statement of X19 on a config with a schema. *)
Lemma upgrade_is_served_from_Background :
  ∃ h,
    handler_http.New (Some schemaConfig) = Done h
    ∧ handler_http.Schema_ h = Some tt
    ∧ ∀ r,
        (handler_http.ServeHTTP h r
           = handler_http.ServedByContextWebsocketHandler Background
         <-> handler_http.Header_Get r "Upgrade" = "websocket"
             ∧ handler_http.WebSocket schemaConfig = true)
        ∧ (handler_http.ServeHTTP h r
             = handler_http.ServedByContextHandler
                 (handler_http.Request_Context r)
           <-> ¬ (handler_http.Header_Get r "Upgrade" = "websocket"
                  ∧ handler_http.WebSocket schemaConfig = true)).
Proof.
  apply (http_facts.New_then_ServeHTTP schemaConfig tt). reflexivity.
Defined.

(** The statement of X18 on the config [NewConfig] gives. *)
Lemma NewConfig_alone_panics :
  handler_http.Config_Schema
    (handler_http.NewConfig (Schema:=Schema) (RootObjectFn:=unit)
       (ResultCallbackFn:=unit)) = None
  ∧ handler_http.New
      (Some (handler_http.NewConfig (Schema:=Schema) (RootObjectFn:=unit)
               (ResultCallbackFn:=unit)))
    = Panic "undefined GraphQL schema".
Proof.
  split; [reflexivity|].
  exact (proj1 (proj2 (http_facts.New_requires_schema (Schema:=Schema))
                  handler_http.NewConfig) eq_refl).
Defined.

End more_examples.
